(** * Population-density resolution: a shallow embedding and its properties

    The repository resolves a coordinate to the population density of an
    enclosing administrative area.  The logic lives twice in the source:
    in [src/population_density.py] (module [PopulationDensity] below) and,
    copied, in [src/app.py] (module [App] below), which adds the rarity
    classification [determine_rarity].

    The three web services the code talks to are the only source of
    effects.  They are modelled as an oracle [upstream]; every function
    that performs a request runs in the monad [M], which records the
    requests made (in order) and carries Python exceptions. *)

From Stdlib Require Import ZArith Lia Ascii Permutation Sorted.
From Stdlib Require Import Floats.SpecFloat.
From stdpp Require Import base option list sorting strings gmap.

Local Open Scope string_scope.
Local Open Scope list_scope.
Local Open Scope Z_scope.

(** ** Python numbers *)

(** A Python [float] is an IEEE 754 binary64 number. *)
Abbreviation float := spec_float.

Definition prec : Z := 53.
Definition emax : Z := 1024.

(** The double nearest to an integer [n], ties to even; it is infinite
    when [n] rounds beyond the largest double.  This is the double that an
    integer literal is compared as, and what the conversion of an integer
    to a float gives where it does not raise (see [int_to_float]). *)
Definition float_of_int (n : Z) : float := binary_normalize prec emax n 0 false.

(** [n] is beyond the range of the doubles (about 1.8e308). *)
Definition too_large (n : Z) : bool :=
  match float_of_int n with S754_infinity _ => true | _ => false end.

Definition float_zero : float := S754_zero false.

(** [x < y], [x <= y] and [x == y] on floats; all false on NaN. *)
Definition float_lt (x y : float) : bool := SFltb x y.
Definition float_le (x y : float) : bool := SFleb x y.
Definition float_eq (x y : float) : bool := SFeqb x y.

(** [bool(x)] for a float, as in [if area:]: true unless [x == 0.0]. *)
Definition float_truth (x : float) : bool := negb (float_eq x float_zero).

Definition is_nan (x : float) : bool :=
  match x with S754_nan => true | _ => false end.

(** The Python values that can sit in the [area_km2] and
    [population_density] slots of a result, or be handed to
    [determine_rarity]. *)
Inductive value : Type :=
  | VNone
  | VInt (n : Z)
  | VFloat (x : float)
  | VStr (s : string).

(** [isinstance(v, (int, float))]. *)
Definition is_number (v : value) : bool :=
  match v with VInt _ | VFloat _ => true | _ => false end.

(** [v < n] for a number [v] and an integer literal [n]. *)
Definition value_lt (v : value) (n : Z) : bool :=
  match v with
  | VInt m => m <? n
  | VFloat x => float_lt x (float_of_int n)
  | _ => false
  end.

(** [n <= v] for an integer literal [n] and a number [v]. *)
Definition value_ge (v : value) (n : Z) : bool :=
  match v with
  | VInt m => n <=? m
  | VFloat x => float_le (float_of_int n) x
  | _ => false
  end.

(** ** Exceptions and the request monad *)

Inductive exn : Type :=
  | RequestException (msg : string)
  | ValueError
  | KeyError (key : string)
  | ZeroDivisionError
  | OverflowError.

Inductive outcome (A : Type) : Type :=
  | Val (a : A)
  | Raise (e : exn).
Arguments Val {A} a.
Arguments Raise {A} e.

(** The requests a run can make. *)
Inductive request : Type :=
  | GetOverpass (lat lon : float)
  | GetSparql (wikidata_id : string)
  | GetSearch (area_name : option string).

(** A computation yields the requests it made and how it ended. *)
Definition M (A : Type) : Type := list request * outcome A.

Definition ret {A} (a : A) : M A := ([], Val a).
Definition raise {A} (e : exn) : M A := ([], Raise e).

Definition bind {A B} (m : M A) (f : A -> M B) : M B :=
  match m with
  | (t, Val a) => let (t', o) := f a in (t ++ t', o)
  | (t, Raise e) => (t, Raise e)
  end.

(** [try: m / except <the e with h e = Some k>: k / else: f].  An exception
    that [h] does not handle propagates, and so does whatever the handler
    or the [else] part raises.  A handler that returns from the enclosing
    function is written this way, with the rest of the function as [f]. *)
Definition try_except_else {A B} (m : M A) (h : exn -> option (M B))
    (f : A -> M B) : M B :=
  match m with
  | (t, Val a) => let (t', o) := f a in (t ++ t', o)
  | (t, Raise e) =>
      match h e with
      | Some k => let (t', o) := k in (t ++ t', o)
      | None => (t, Raise e)
      end
  end.

(** [try: m / except ...: k], where the handler yields the value that the
    code after the statement goes on with. *)
Definition try_except {A} (m : M A) (h : exn -> option (M A)) : M A :=
  try_except_else m h ret.

Declare Scope py_scope.
Delimit Scope py_scope with py.
Notation "x ← y ; z" := (bind y (fun x => z))
  (at level 20, y at level 100, z at level 200, only parsing) : py_scope.
Local Open Scope py_scope.

Definition trace {A} (m : M A) : list request := fst m.
Definition result {A} (m : M A) : outcome A := snd m.

(** Handlers for the [except] clauses of the source. *)
Definition on_RequestException {B} (k : string -> M B) (e : exn) : option (M B) :=
  match e with RequestException msg => Some (k msg) | _ => None end.
Definition on_ValueError {B} (k : M B) (e : exn) : option (M B) :=
  match e with ValueError => Some k | _ => None end.
Definition on_KeyError_ValueError {B} (k : M B) (e : exn) : option (M B) :=
  match e with KeyError _ | ValueError => Some k | _ => None end.

(** ** Python builtins *)

(** [int(s)] and [float(s)] on a string are taken as parameters
    [string -> option _] of the program; [None] stands for [ValueError]. *)
Definition parse {A} (f : string -> option A) (s : string) : M A :=
  match f s with Some x => ret x | None => raise ValueError end.

(** [d[k]] on a dict. *)
Definition getitem {V} (d : gmap string V) (k : string) : M V :=
  match d !! k with Some v => ret v | None => raise (KeyError k) end.

(** [sorted(l, key=key, reverse=True)]: a stable sort, descending by key.
    An element is inserted in front of the first one whose key is not
    larger than its own, so equal keys keep their order. *)
Fixpoint insert_reverse {A} (key : A -> Z) (x : A) (l : list A) : list A :=
  match l with
  | [] => [x]
  | y :: l' =>
      if key x <? key y then y :: insert_reverse key x l' else x :: y :: l'
  end.

Definition sorted_reverse {A} (key : A -> Z) (l : list A) : list A :=
  foldr (insert_reverse key) [] l.

(** The conversion of an integer operand to a float: CPython raises
    [OverflowError] ("int too large to convert to float") for an integer
    beyond the double range. *)
Definition int_to_float (n : Z) : M float :=
  if too_large n then raise OverflowError else ret (float_of_int n).

(** [n / a] for an int [n] and a float [a]: true division.  The integer is
    converted first, then the divisor is tested. *)
Definition truediv (n : Z) (a : float) : M float :=
  x ← int_to_float n;
  if float_eq a float_zero then raise ZeroDivisionError
  else ret (SFdiv prec emax x a).

(** ** The upstream services

    A reply is what [requests.get(...)], [raise_for_status()] and [json()]
    give together: the decoded body, or a [RequestException].  The bodies
    are typed by what the code reads from them: a key that the code tests
    for, reads with [.get] or reads under a [KeyError] handler is optional;
    a key it indexes directly is present. *)
Inductive reply (A : Type) : Type :=
  | Failed (msg : string)
  | Json (data : A).
Arguments Failed {A} msg.
Arguments Json {A} data.

(** Overpass: [{"elements": [{"tags": {...}}, ...]}]. *)
Record element : Type := { element_tags : option (gmap string string) }.
Record overpass_data : Type := { data_elements : option (list element) }.

(** SPARQL: [{"results": {"bindings": [{var: {"value": ...}, ...}]}}];
    a binding maps a variable to the value of its term. *)
Record sparql_results : Type :=
  { results_bindings : option (list (gmap string string)) }.
Record sparql_data : Type := { data_results : option sparql_results }.

(** wbsearchentities: [{"search": [{"id": ...}, ...]}]. *)
Record search_data : Type := { data_search : option (list string) }.

Record upstream : Type := {
  overpass : float -> float -> reply overpass_data;
  sparql : string -> reply sparql_data;
  wbsearch : option string -> reply search_data
}.

(** One request: logged, then its body or a [RequestException]. *)
Definition http_get {A} (rq : request) (r : reply A) : M A :=
  ([rq],
   match r with
   | Json d => Val d
   | Failed msg => Raise (RequestException msg)
   end).

(** ** The dicts the functions return *)

Module Area.
Record t : Type := {
  name : option string;
  wikidata_id : string;
  admin_level : Z
}.
End Area.

Module Density.
Record t : Type := {
  population : Z;
  area_km2 : value;
  population_density : value
}.
End Density.

Module Resolution.
Record t : Type := {
  location : option string;
  admin_level : Z;
  population : Z;
  area_km2 : value;
  population_density : value;
  wikidata_id : option string   (* [None]: the key is absent *)
}.
End Resolution.

(** A returned dict either has the key ["error"] or carries data. *)
Inductive answer (A : Type) : Type :=
  | Error (error : string)
  | Data (d : A).
Arguments Error {A} error.
Arguments Data {A} d.


(** ** [src/population_density.py] *)

Module PopulationDensity.
Section Program.
Context (py_int : string -> option Z) (py_float : string -> option float).
Context (net : upstream).

(** The body of [for element in data["elements"]], the list [areas]
    being built by [append]. *)
Fixpoint collect_areas (elements : list element) : M (list Area.t) :=
  match elements with
  | [] => ret []
  | element :: rest =>
      match element_tags element with
      | Some tags =>
          match tags !! "wikidata" with
          | Some wikidata =>
              admin_level ←
                try_except
                  (match tags !! "admin_level" with
                   | Some s => parse py_int s
                   | None => ret 99
                   end)
                  (on_ValueError (ret 99));
              areas ← collect_areas rest;
              ret ({| Area.name := tags !! "name";
                      Area.wikidata_id := wikidata;
                      Area.admin_level := admin_level |} :: areas)
          | None => collect_areas rest
          end
      | None => collect_areas rest
      end
  end.

Definition get_osm_administrative_areas (lat lon : float) : M (list Area.t) :=
  try_except
    (data ← http_get (GetOverpass lat lon) (overpass net lat lon);
     match data_elements data with
     | Some ((_ :: _) as elements) =>
         areas ← collect_areas elements;
         ret (sorted_reverse Area.admin_level areas)
     | _ => ret []
     end)
    (on_RequestException (fun _ => ret [])).

Definition no_area_data (population : Z) : Density.t :=
  {| Density.population := population;
     Density.area_km2 := VStr "Unknown";
     Density.population_density := VStr "Cannot calculate (no area data)" |}.

Definition get_population_and_area_wikidata (wikidata_id : string)
  : M (answer Density.t) :=
  try_except
    (data ← http_get (GetSparql wikidata_id) (sparql net wikidata_id);
     match data_results data ≫= results_bindings with
     | Some (result :: _) =>
         try_except_else
           (v ← getitem result "population"; parse py_int v)
           (on_KeyError_ValueError (ret (Error "Population data is not in a valid format.")))
           (fun population =>
              area ←
                match result !! "area" with
                | Some v =>
                    try_except (a ← parse py_float v; ret (Some a))
                               (on_ValueError (ret None))
                | None => ret None
                end;
              match area with
              | Some a =>
                  if float_truth a then
                    density ← truediv population a;
                    ret (Data {| Density.population := population;
                                 Density.area_km2 := VFloat a;
                                 Density.population_density := VFloat density |})
                  else ret (Data (no_area_data population))
              | None => ret (Data (no_area_data population))
              end)
     | _ => ret (Error "No population or area data found for this Wikidata ID.")
     end)
    (on_RequestException (fun msg => ret (Error ("Request failed: " +:+ msg)))).

Definition search_alternative_wikidata_ids (area_name : option string)
  : M (list string) :=
  try_except
    (data ← http_get (GetSearch area_name) (wbsearch net area_name);
     ret (default [] (data_search data)))
    (on_RequestException (fun _ => ret [])).

(** [for alt_id in alternatives]: [Some r] when the loop returns [r] from
    the function, [None] when it runs to its end. *)
Fixpoint try_alternatives (area : Area.t) (wikidata_id : string)
    (alternatives : list string) : M (option (answer Resolution.t)) :=
  match alternatives with
  | [] => ret None
  | alt_id :: rest =>
      if String.eqb alt_id wikidata_id then
        try_alternatives area wikidata_id rest
      else
        alt_population_data ← get_population_and_area_wikidata alt_id;
        match alt_population_data with
        | Data d =>
            ret (Some (Data
              {| Resolution.location := Area.name area;
                 Resolution.admin_level := Area.admin_level area;
                 Resolution.population := Density.population d;
                 Resolution.area_km2 := Density.area_km2 d;
                 Resolution.population_density := Density.population_density d;
                 Resolution.wikidata_id := Some alt_id |}))
        | Error _ => try_alternatives area wikidata_id rest
        end
  end.

(** [for area in areas], with the same convention. *)
Fixpoint try_areas (areas : list Area.t) : M (option (answer Resolution.t)) :=
  match areas with
  | [] => ret None
  | area :: rest =>
      let wikidata_id := Area.wikidata_id area in
      population_data ← get_population_and_area_wikidata wikidata_id;
      match population_data with
      | Data d =>
          ret (Some (Data
            {| Resolution.location := Area.name area;
               Resolution.admin_level := Area.admin_level area;
               Resolution.population := Density.population d;
               Resolution.area_km2 := Density.area_km2 d;
               Resolution.population_density := Density.population_density d;
               Resolution.wikidata_id := None |}))
      | Error _ =>
          alternatives ← search_alternative_wikidata_ids (Area.name area);
          found ← try_alternatives area wikidata_id alternatives;
          match found with
          | Some r => ret (Some r)
          | None => try_areas rest
          end
      end
  end.

Definition get_population_density (lat lon : float) : M (answer Resolution.t) :=
  areas ← get_osm_administrative_areas lat lon;
  match areas with
  | [] => ret (Error "No administrative areas found for this location.")
  | _ :: _ =>
      found ← try_areas areas;
      match found with
      | Some r => ret r
      | None =>
          ret (Error "Could not fetch population or area data from Wikidata for any administrative area.")
      end
  end.

End Program.

End PopulationDensity.

(** ** [src/app.py] *)

Module App.
Section Program.
Context (py_int : string -> option Z) (py_float : string -> option float).
Context (net : upstream).

(** The body of [for element in data["elements"]], the list [areas]
    being built by [append]. *)
Fixpoint collect_areas (elements : list element) : M (list Area.t) :=
  match elements with
  | [] => ret []
  | element :: rest =>
      match element_tags element with
      | Some tags =>
          match tags !! "wikidata" with
          | Some wikidata =>
              admin_level ←
                try_except
                  (match tags !! "admin_level" with
                   | Some s => parse py_int s
                   | None => ret 99
                   end)
                  (on_ValueError (ret 99));
              areas ← collect_areas rest;
              ret ({| Area.name := tags !! "name";
                      Area.wikidata_id := wikidata;
                      Area.admin_level := admin_level |} :: areas)
          | None => collect_areas rest
          end
      | None => collect_areas rest
      end
  end.

Definition get_osm_administrative_areas (lat lon : float) : M (list Area.t) :=
  try_except
    (data ← http_get (GetOverpass lat lon) (overpass net lat lon);
     match data_elements data with
     | Some ((_ :: _) as elements) =>
         areas ← collect_areas elements;
         ret (sorted_reverse Area.admin_level areas)
     | _ => ret []
     end)
    (on_RequestException (fun _ => ret [])).

Definition no_area_data (population : Z) : Density.t :=
  {| Density.population := population;
     Density.area_km2 := VStr "Unknown";
     Density.population_density := VStr "Cannot calculate (no area data)" |}.

Definition get_population_and_area_wikidata (wikidata_id : string)
  : M (answer Density.t) :=
  try_except
    (data ← http_get (GetSparql wikidata_id) (sparql net wikidata_id);
     match data_results data ≫= results_bindings with
     | Some (result :: _) =>
         try_except_else
           (v ← getitem result "population"; parse py_int v)
           (on_KeyError_ValueError (ret (Error "Population data is not valid.")))
           (fun population =>
              area ←
                match result !! "area" with
                | Some v =>
                    try_except (a ← parse py_float v; ret (Some a))
                               (on_ValueError (ret None))
                | None => ret None
                end;
              match area with
              | Some a =>
                  if float_truth a then
                    density ← truediv population a;
                    ret (Data {| Density.population := population;
                                 Density.area_km2 := VFloat a;
                                 Density.population_density := VFloat density |})
                  else ret (Data (no_area_data population))
              | None => ret (Data (no_area_data population))
              end)
     | _ => ret (Error "No population or area data found for this Wikidata ID.")
     end)
    (on_RequestException (fun msg => ret (Error ("Request failed: " +:+ msg)))).

Definition search_alternative_wikidata_ids (area_name : option string)
  : M (list string) :=
  try_except
    (data ← http_get (GetSearch area_name) (wbsearch net area_name);
     ret (default [] (data_search data)))
    (on_RequestException (fun _ => ret [])).

(** [for alt_id in alternatives]: [Some r] when the loop returns [r] from
    the function, [None] when it runs to its end. *)
Fixpoint try_alternatives (area : Area.t) (wikidata_id : string)
    (alternatives : list string) : M (option (answer Resolution.t)) :=
  match alternatives with
  | [] => ret None
  | alt_id :: rest =>
      if String.eqb alt_id wikidata_id then
        try_alternatives area wikidata_id rest
      else
        alt_population_data ← get_population_and_area_wikidata alt_id;
        match alt_population_data with
        | Data d =>
            ret (Some (Data
              {| Resolution.location := Area.name area;
                 Resolution.admin_level := Area.admin_level area;
                 Resolution.population := Density.population d;
                 Resolution.area_km2 := Density.area_km2 d;
                 Resolution.population_density := Density.population_density d;
                 Resolution.wikidata_id := Some alt_id |}))
        | Error _ => try_alternatives area wikidata_id rest
        end
  end.

(** [for area in areas], with the same convention. *)
Fixpoint try_areas (areas : list Area.t) : M (option (answer Resolution.t)) :=
  match areas with
  | [] => ret None
  | area :: rest =>
      let wikidata_id := Area.wikidata_id area in
      population_data ← get_population_and_area_wikidata wikidata_id;
      match population_data with
      | Data d =>
          ret (Some (Data
            {| Resolution.location := Area.name area;
               Resolution.admin_level := Area.admin_level area;
               Resolution.population := Density.population d;
               Resolution.area_km2 := Density.area_km2 d;
               Resolution.population_density := Density.population_density d;
               Resolution.wikidata_id := None |}))
      | Error _ =>
          alternatives ← search_alternative_wikidata_ids (Area.name area);
          found ← try_alternatives area wikidata_id alternatives;
          match found with
          | Some r => ret (Some r)
          | None => try_areas rest
          end
      end
  end.

Definition get_population_density (lat lon : float) : M (answer Resolution.t) :=
  areas ← get_osm_administrative_areas lat lon;
  match areas with
  | [] => ret (Error "No administrative areas found for this location.")
  | _ :: _ =>
      found ← try_areas areas;
      match found with
      | Some r => ret r
      | None =>
          ret (Error "Could not fetch population or area data from Wikidata for any administrative area.")
      end
  end.

End Program.

Definition determine_rarity (population_density : value) : option Z :=
  if negb (is_number population_density) then None
  else if value_lt population_density 25 then Some 1
  else if value_lt population_density 100 then Some 2
  else if value_lt population_density 500 then Some 3
  else Some 4.

End App.

(** ** Flask requests, responses and the users file

    What the routes of [src/app.py] and [src/appwsolanapubkey.py] see of a
    request is its form fields; what they answer is a JSON body with a
    status.  Messages flashed or logged are diagnostics and left out. *)

(** [not field] for a form field read with [request.form.get]: the field
    is absent or empty. *)
Definition blank (field : option string) : bool :=
  match field with
  | None | Some EmptyString => true
  | Some _ => false
  end.

Inductive json : Type :=
  | JBool (b : bool)
  | JStr (s : string)
  | JList (l : list string).

Definition response : Type := gmap string json * Z.

(** [jsonify({...}), status]. *)
Definition jsonify (body : list (string * json)) (status : Z) : response :=
  (list_to_map body, status).

(** The file [users.json] as [load_users] meets it: not there; there, but
    not to be opened (an [OSError] other than [FileNotFoundError]: a
    directory, no permission); its bytes are no text ([UnicodeDecodeError]
    on reading); text that is no JSON document ([JSONDecodeError], the
    empty file included); or a document.  A document is taken to be an
    object of user records as the two signups write them. *)
Inductive file (A : Type) : Type :=
  | Missing
  | Unreadable
  | Undecodable
  | NotJson
  | Holds (content : A).
Arguments Missing {A}.
Arguments Unreadable {A}.
Arguments Undecodable {A}.
Arguments NotJson {A}.
Arguments Holds {A} content.

(** How a write of the file ends: the document is written, or [open] or
    [json.dump] raises, [on_disk] being what the file is then. *)
Inductive write (A : Type) : Type :=
  | Written
  | WriteError (on_disk : file A).
Arguments Written {A}.
Arguments WriteError {A} on_disk.

Module Wallet.
Record t : Type := {
  public_key : string;
  secret_key : string
}.
End Wallet.

(** A record of [users.json]: the three keys that both signups write, and
    the six lists that the signup of [src/app.py] adds; [None] is a key
    that the record does not have. *)
Module User.
Record t : Type := {
  password : string;
  solana_public_key : string;
  solana_private_key : string;
  nft_names : option (list string);
  descriptions : option (list string);
  image_paths : option (list string);
  latitude : option (list (option string));
  longitude : option (list (option string));
  rarity : option (list (option Z))
}.

#[global] Instance eq_dec : EqDecision t.
Proof. solve_decision. Defined.

(** [r[key] = l], key by key. *)
Definition set_nft_names (l : list string) (r : t) : t :=
  {| password := password r; solana_public_key := solana_public_key r;
     solana_private_key := solana_private_key r;
     nft_names := Some l; descriptions := descriptions r;
     image_paths := image_paths r; latitude := latitude r;
     longitude := longitude r; rarity := rarity r |}.

Definition set_descriptions (l : list string) (r : t) : t :=
  {| password := password r; solana_public_key := solana_public_key r;
     solana_private_key := solana_private_key r;
     nft_names := nft_names r; descriptions := Some l;
     image_paths := image_paths r; latitude := latitude r;
     longitude := longitude r; rarity := rarity r |}.

Definition set_image_paths (l : list string) (r : t) : t :=
  {| password := password r; solana_public_key := solana_public_key r;
     solana_private_key := solana_private_key r;
     nft_names := nft_names r; descriptions := descriptions r;
     image_paths := Some l; latitude := latitude r;
     longitude := longitude r; rarity := rarity r |}.

Definition set_latitude (l : list (option string)) (r : t) : t :=
  {| password := password r; solana_public_key := solana_public_key r;
     solana_private_key := solana_private_key r;
     nft_names := nft_names r; descriptions := descriptions r;
     image_paths := image_paths r; latitude := Some l;
     longitude := longitude r; rarity := rarity r |}.

Definition set_longitude (l : list (option string)) (r : t) : t :=
  {| password := password r; solana_public_key := solana_public_key r;
     solana_private_key := solana_private_key r;
     nft_names := nft_names r; descriptions := descriptions r;
     image_paths := image_paths r; latitude := latitude r;
     longitude := Some l; rarity := rarity r |}.

Definition set_rarity (l : list (option Z)) (r : t) : t :=
  {| password := password r; solana_public_key := solana_public_key r;
     solana_private_key := solana_private_key r;
     nft_names := nft_names r; descriptions := descriptions r;
     image_paths := image_paths r; latitude := latitude r;
     longitude := longitude r; rarity := Some l |}.
End User.

(** How a route ends: it goes on with a value, returns a response, or
    raises an exception. *)
Inductive flow (A : Type) : Type :=
  | Go (a : A)
  | Return (r : response)
  | Throw.
Arguments Go {A} a.
Arguments Return {A} r.
Arguments Throw {A}.

Definition and_then {A B} (m : flow A) (f : A -> flow B) : flow B :=
  match m with
  | Go a => f a
  | Return r => Return r
  | Throw => Throw
  end.

(** What [subprocess.check_output] and the decoding of its output give:
    the output, a [CalledProcessError] (a non-zero exit, with an output that
    the handler can decode), or another exception. *)
Inductive process : Type :=
  | Output (out : string)
  | CalledProcessError (out : string)
  | OtherError.

(** [os.path.join(a, b)] on POSIX, for a directory name [a] that is not
    empty and has no slash at its end. *)
Definition os_path_join (a b : string) : string :=
  match b with
  | String "/"%char _ => b
  | _ => a +:+ "/" +:+ b
  end.

(** ** [src/appwsolanapubkey.py] *)

Module AppWSolanaPubkey.

(** The global [users] and the file [users.json]. *)
Record state : Type := {
  users : gmap string User.t;
  users_file : file (gmap string User.t)
}.

(** [save_users(us)], the write ending as [disk] says: whether it
    returned, and the file afterwards. *)
Definition save_users (disk : write (gmap string User.t))
    (us : gmap string User.t) : flow unit * file (gmap string User.t) :=
  match disk with
  | Written => (Go (), Holds us)
  | WriteError on_disk => (Throw, on_disk)
  end.

(** [load_users()] on a file: the dict returned, or the exception, and
    the file afterwards.  [disk] is how the write of [save_users({})]
    ends; at most one of the two calls is reached. *)
Definition load_users (users_file : file (gmap string User.t))
    (disk : write (gmap string User.t))
  : flow (gmap string User.t) * file (gmap string User.t) :=
  let (created, users_file) :=
    match users_file with
    | Missing => save_users disk ∅    (* [if not os.path.exists(USERS_FILE)] *)
    | _ => (Go (), users_file)
    end in
  match created with
  | Go _ =>
      match users_file with
      | Holds us => (Go us, users_file)
      | NotJson | Missing =>
          (* [except (json.JSONDecodeError, FileNotFoundError)] *)
          match save_users disk ∅ with
          | (Go _, users_file) => (Go ∅, users_file)
          | (_, users_file) => (Throw, users_file)
          end
      | Unreadable | Undecodable =>
          (Throw, users_file)   (* [OSError], [UnicodeDecodeError] *)
      end
  | _ => (Throw, users_file)
  end.

(** [users = load_users()], when the module is loaded; [None] where the
    import raises. *)
Definition start (users_file : file (gmap string User.t))
    (disk : write (gmap string User.t)) : option state :=
  match load_users users_file disk with
  | (Go us, users_file) => Some {| users := us; users_file := users_file |}
  | _ => None
  end.

Section Routes.
(** [encrypt s] is the token that [cipher_suite.encrypt] gives for [s] in
    the call at hand, and [decrypt t] what [cipher_suite.decrypt] gives for
    [t], [None] where it raises. *)
Context (encrypt : string -> string) (decrypt : string -> option string).

(** [wallet] is what [create_solana_wallet()] gives when it is called, and
    [disk] how the write of [save_users] ends.  The route has no handler:
    where the write raises, the exception leaves it, [users] having the
    new record already. *)
Definition signup (st : state) (username password : option string)
    (wallet : Wallet.t) (disk : write (gmap string User.t))
  : flow response * state :=
  match username, password with
  | Some u, Some p =>
      if blank username || blank password then
        (Return (jsonify [("success", JBool false);
                          ("message", JStr "Username and password are required.")]
                   400),
         st)
      else if bool_decide (is_Some (users st !! u)) then
        (Return (jsonify [("success", JBool false);
                          ("message", JStr "Username already exists.")] 400),
         st)
      else
        let encrypted_private_key := encrypt (Wallet.secret_key wallet) in
        let st :=
          {| users :=
               <[u := {| User.password := p;
                         User.solana_public_key := Wallet.public_key wallet;
                         User.solana_private_key := encrypted_private_key;
                         User.nft_names := None;
                         User.descriptions := None;
                         User.image_paths := None;
                         User.latitude := None;
                         User.longitude := None;
                         User.rarity := None |}]>
                 (users st);
             users_file := users_file st |} in
        match save_users disk (users st) with
        | (Go _, users_file) =>
            (Return (jsonify
               [("success", JBool true);
                ("message", JStr "Signup successful.");
                ("solana_public_key", JStr (Wallet.public_key wallet))] 201),
             {| users := users st; users_file := users_file |})
        | (_, users_file) =>
            (Throw, {| users := users st; users_file := users_file |})
        end
  | _, _ =>
      (Return (jsonify [("success", JBool false);
                        ("message", JStr "Username and password are required.")]
                 400),
       st)
  end.

Definition login (st : state) (username password : option string) : response :=
  match username, password with
  | Some u, Some p =>
      if blank username || blank password then
        jsonify [("success", JBool false);
                 ("message", JStr "Username and password are required.")] 400
      else
        match users st !! u with
        | Some r =>
            if String.eqb (User.password r) p then
              jsonify [("success", JBool true);
                       ("message", JStr "Login successful.")] 200
            else
              jsonify [("success", JBool false);
                       ("message", JStr "Invalid username or password.")] 401
        | None =>
            jsonify [("success", JBool false);
                     ("message", JStr "Invalid username or password.")] 401
        end
  | _, _ =>
      jsonify [("success", JBool false);
               ("message", JStr "Username and password are required.")] 400
  end.

(** [decrypt] gives [None] where [cipher_suite.decrypt] raises; the route
    has no handler, so the exception leaves it. *)
Definition get_wallet (st : state) (username : option string) : flow response :=
  match username with
  | Some u =>
      if blank username then
        Return (jsonify [("success", JBool false);
                         ("message", JStr "User not found.")] 404)
      else
        match users st !! u with
        | None =>
            Return (jsonify [("success", JBool false);
                             ("message", JStr "User not found.")] 404)
        | Some r =>
            match decrypt (User.solana_private_key r) with
            | None => Throw
            | Some decrypted_key =>
                Return (jsonify
                  [("solana_public_key", JStr (User.solana_public_key r));
                   ("solana_private_key", JStr decrypted_key)] 200)
            end
        end
  | None =>
      Return (jsonify [("success", JBool false);
                       ("message", JStr "User not found.")] 404)
  end.

End Routes.

(** The global [user_images]: the last upload of each name. *)
Record image_record : Type := {
  name : string;
  description : string;
  path : string;
  recipient : string
}.

(** What [upload] answers with: a redirect to [request.url], a redirect to
    [url_for('upload')], or the template with its two arguments. *)
Inductive page : Type :=
  | RedirectToRequest
  | RedirectToUpload
  | UploadPage (user_images : gmap string image_record)
      (mint_address : option string).

(** A request to [/]: whether it is a POST, its form fields, and the name
    of the file under ['image'], if there is one. *)
Record upload_request : Type := {
  post : bool;
  form_username : option string;
  form_name : option string;
  form_description : option string;
  form_recipient : option string;
  files_image : option string
}.

Section Upload.
Context (check_output : list string -> process).
Context (search_mint_address : string -> option string).
(** [image.save(file_path)]: [false] where it raises. *)
Context (store_image : string -> bool).

Definition fields_required : string :=
  "Username, NFT name, description, recipient public key, and image are all required!".

(** [upload]: [user_images] afterwards, and the messages flashed with the
    page answered, or [None] where an exception leaves the route (it has
    no handler but the one for [CalledProcessError]).  An uploaded file
    is false when its name is empty. *)
Definition upload (user_images : gmap string image_record)
    (req : upload_request)
  : gmap string image_record * option (list string * page) :=
  let mint_address : option string := None in
  if post req then
    match form_username req, form_name req, form_description req,
          files_image req, form_recipient req with
    | Some username, Some nft_name, Some description,
      Some filename, Some recipient_pubkey =>
        if blank (Some username) || blank (Some nft_name)
           || blank (Some description) || blank (Some filename)
           || blank (Some recipient_pubkey) then
          (user_images, Some ([fields_required], RedirectToRequest))
        else
          let file_path := os_path_join "uploads" filename in
          if negb (store_image file_path) then (user_images, None) else
          let user_images :=
            <[username := {| name := nft_name;
                             description := description;
                             path := file_path;
                             recipient := recipient_pubkey |}]> user_images in
          match check_output ["node"; "mintNft.js"; file_path; nft_name;
                              "MYNFT"; description] with
          | CalledProcessError _ =>
              (user_images,
               Some (["Error minting NFT. Check the server logs."],
                     RedirectToRequest))
          | OtherError => (user_images, None)
          | Output mint_output_str =>
              match search_mint_address mint_output_str with
              | None => (user_images, None)   (* [None] in the send command *)
              | Some mint_address =>
                  match check_output ["node"; "sendNft.js"; mint_address;
                                      recipient_pubkey] with
                  | CalledProcessError _ =>
                      (user_images,
                       Some (["Error sending NFT. Check the server logs."],
                             RedirectToRequest))
                  | OtherError => (user_images, None)
                  | Output _ =>
                      (user_images,
                       Some ("NFT minted and sent successfully!"
                             :: (if blank (Some mint_address) then []
                                 else ["NFT Mint Address: " +:+ mint_address]),
                             RedirectToUpload))
                  end
              end
          end
    | _, _, _, _, _ =>
        (user_images, Some ([fields_required], RedirectToRequest))
    end
  else (user_images, Some ([], UploadPage user_images mint_address)).

End Upload.
End AppWSolanaPubkey.

(** ** [src/app.py], the routes *)

Module AppRoutes.

Record state : Type := {
  users : gmap string User.t;
  users_file : file (gmap string User.t)
}.

Definition save_users (disk : write (gmap string User.t))
    (us : gmap string User.t) : flow unit * file (gmap string User.t) :=
  match disk with
  | Written => (Go (), Holds us)
  | WriteError on_disk => (Throw, on_disk)
  end.

Definition load_users (users_file : file (gmap string User.t))
    (disk : write (gmap string User.t))
  : flow (gmap string User.t) * file (gmap string User.t) :=
  let (created, users_file) :=
    match users_file with
    | Missing => save_users disk ∅
    | _ => (Go (), users_file)
    end in
  match created with
  | Go _ =>
      match users_file with
      | Holds us => (Go us, users_file)
      | NotJson | Missing =>
          match save_users disk ∅ with
          | (Go _, users_file) => (Go ∅, users_file)
          | (_, users_file) => (Throw, users_file)
          end
      | Unreadable | Undecodable => (Throw, users_file)
      end
  | _ => (Throw, users_file)
  end.

Definition start (users_file : file (gmap string User.t))
    (disk : write (gmap string User.t)) : option state :=
  match load_users users_file disk with
  | (Go us, users_file) => Some {| users := us; users_file := users_file |}
  | _ => None
  end.

(** The Python values that [login] compares: [None], a string, or a dict
    of [users]. *)
Inductive pyobj : Type :=
  | PNone
  | PStr (s : string)
  | PUser (r : User.t).

(** [a == b]: values of different types are unequal. *)
Definition py_eq (a b : pyobj) : bool :=
  match a, b with
  | PNone, PNone => true
  | PStr s, PStr t => String.eqb s t
  | PUser r, PUser r' => bool_decide (r = r')
  | _, _ => false
  end.

(** [users.get(username)]. *)
Definition users_get (st : state) (u : string) : pyobj :=
  match users st !! u with
  | Some r => PUser r
  | None => PNone
  end.

Definition internal_error : response :=
  jsonify [("success", JBool false);
           ("message", JStr "An internal error occurred.")] 500.

(** The fields of an upload: the form, and the name of the file under
    ['image'] in [request.files], if there is one. *)
Record upload_form : Type := {
  form_username : option string;
  form_name : option string;
  form_description : option string;
  form_latitude : option string;
  form_longitude : option string;
  files_image : option string
}.

Section Routes.
Context (py_int : string -> option Z) (py_float : string -> option float).
Context (net : upstream).
Context (encrypt : string -> string) (decrypt : string -> option string).
(** [subprocess.check_output(command, ...)], and group 1 of
    [re.search(r'NFT created with address:\s*(\S+)', output)]. *)
Context (check_output : list string -> process).
Context (search_mint_address : string -> option string).
(** [os.makedirs(upload_folder)] where the folder is not there, then
    [file.save(file_path)]: [false] where one of them raises. *)
Context (store_image : string -> bool).

(** The route runs in [try: ... except Exception], which answers 500:
    where the write of [save_users] raises, [users] has the new record
    already. *)
Definition signup (st : state) (username password : option string)
    (wallet : Wallet.t) (disk : write (gmap string User.t))
  : response * state :=
  match username, password with
  | Some u, Some p =>
      if blank username || blank password then
        (jsonify [("success", JBool false);
                  ("message", JStr "Username and password are required.")] 400,
         st)
      else if bool_decide (is_Some (users st !! u)) then
        (jsonify [("success", JBool false);
                  ("message", JStr "Username already exists.")] 400,
         st)
      else
        let encrypted_private_key := encrypt (Wallet.secret_key wallet) in
        let st :=
          {| users :=
               <[u := {| User.password := p;
                         User.solana_public_key := Wallet.public_key wallet;
                         User.solana_private_key := encrypted_private_key;
                         User.nft_names := Some [];
                         User.descriptions := Some [];
                         User.image_paths := Some [];
                         User.latitude := Some [];
                         User.longitude := Some [];
                         User.rarity := Some [] |}]>
                 (users st);
             users_file := users_file st |} in
        match save_users disk (users st) with
        | (Go _, users_file) =>
            (jsonify [("success", JBool true);
                      ("message", JStr "Signup successful.");
                      ("solana_public_key", JStr (Wallet.public_key wallet));
                      ("solana_private_key", JStr (Wallet.secret_key wallet))]
               201,
             {| users := users st; users_file := users_file |})
        | (_, users_file) =>
            (internal_error, {| users := users st; users_file := users_file |})
        end
  | _, _ =>
      (jsonify [("success", JBool false);
                ("message", JStr "Username and password are required.")] 400,
       st)
  end.

(** [users[username]["solana_public_key"]] raises [KeyError] for a name
    that is not in [users]; the route has no handler. *)
Definition login (st : state) (username password : option string)
  : flow response :=
  match username, password with
  | Some u, Some p =>
      if blank username || blank password then
        Return (jsonify [("success", JBool false);
                         ("message", JStr "Username and password are required.")]
                  400)
      else if py_eq (users_get st u) (PStr p) then
        match users st !! u with
        | Some r =>
            Return (jsonify
              [("success", JBool true);
               ("message", JStr "Login successful.");
               ("solana_public_key", JStr (User.solana_public_key r))] 200)
        | None => Throw
        end
      else
        Return (jsonify [("success", JBool false);
                         ("message", JStr "Invalid username or password.")] 401)
  | _, _ =>
      Return (jsonify [("success", JBool false);
                       ("message", JStr "Username and password are required.")]
                400)
  end.

Definition get_wallet (st : state) (username : option string) : flow response :=
  match username with
  | Some u =>
      if blank username then
        Return (jsonify [("success", JBool false);
                         ("message", JStr "User not found.")] 404)
      else
        match users st !! u with
        | None =>
            Return (jsonify [("success", JBool false);
                             ("message", JStr "User not found.")] 404)
        | Some r =>
            match decrypt (User.solana_private_key r) with
            | None => Throw
            | Some decrypted_key =>
                Return (jsonify
                  [("solana_public_key", JStr (User.solana_public_key r));
                   ("solana_private_key", JStr decrypted_key)] 200)
            end
        end
  | None =>
      Return (jsonify [("success", JBool false);
                       ("message", JStr "User not found.")] 404)
  end.

(** [users[username]] raises [KeyError] for a name that is not in
    [users], and for no name, and so does a list key that the record does
    not have; the route has no handler. *)
Definition get_belongings (st : state) (username : option string)
  : flow response :=
  match username with
  | Some u =>
      match users st !! u with
      | Some r =>
          match User.nft_names r, User.descriptions r, User.image_paths r with
          | Some nft_names, Some descriptions, Some image_paths =>
              Return (jsonify [("nft_names", JList nft_names);
                               ("descriptions", JList descriptions);
                               ("image_paths", JList image_paths)] 200)
          | _, _, _ => Throw
          end
      | None => Throw
      end
  | None => Throw
  end.

(** The rarity of an upload: the [try] block of [upload] that ends in
    [except Exception: rarity = None].  [float(None)] raises [TypeError],
    which that handler catches like any other exception. *)
Definition upload_rarity (lat long_val : option string) : M (option Z) :=
  match lat, long_val with
  | Some lat, Some long_val =>
      try_except
        (lat_val ← parse py_float lat;
         lon_val ← parse py_float long_val;
         pop_density_data ←
           App.get_population_density py_int py_float net lat_val lon_val;
         match pop_density_data with
         | Data d =>
             if is_number (Resolution.population_density d) then
               ret (App.determine_rarity (Resolution.population_density d))
             else ret None
         | Error _ => ret None
         end)
        (fun _ => Some (ret None))
  | _, _ => ret None
  end.

(** [upload] up to the minting and sending of the NFT: the user's name
    and the three values that go into the user's lists. *)
Definition upload_minting (st : state) (f : upload_form)
  : flow (string * string * string * string) :=
  match files_image f with
  | None =>
      Return (jsonify [("success", JBool false);
                       ("message", JStr "No image file provided")] 400)
  | Some filename =>
      if String.eqb filename EmptyString then
        Return (jsonify [("success", JBool false);
                         ("message", JStr "No selected image file")] 400)
      else
        let file_path := os_path_join "uploads" filename in
        if negb (store_image file_path) then Throw else
        let image := file_path in
        (* [users[username]["solana_public_key"]] *)
        match form_username f, form_name f, form_description f with
        | Some username, nft_name, description =>
            match users st !! username with
            | None => Throw
            | Some r =>
                let recipient_pubkey := User.solana_public_key r in
                match nft_name, description with
                | Some nft_name, Some description =>
                    if blank (Some username) || blank (Some nft_name)
                       || blank (Some description) || blank (Some image)
                       || blank (Some recipient_pubkey) then
                      Return (jsonify [("success", JBool false);
                                       ("message", JStr "error minting NFT.")] 400)
                    else
                      match check_output ["node"; "mintNft.js"; file_path;
                                          nft_name; "MYNFT"; description] with
                      | CalledProcessError _ =>
                          Return (jsonify [("success", JBool false);
                                           ("message", JStr "error minting NFT.")]
                                    400)
                      | OtherError => Throw
                      | Output mint_output_str =>
                          match search_mint_address mint_output_str with
                          | None => Throw   (* [None] in the send command *)
                          | Some mint_address =>
                              match check_output ["node"; "sendNft.js";
                                                  mint_address; recipient_pubkey] with
                              | CalledProcessError _ =>
                                  Return (jsonify
                                    [("success", JBool false);
                                     ("message", JStr "error sending NFT.")] 400)
                              | OtherError => Throw
                              | Output _ =>
                                  Go (username, nft_name, description, image)
                              end
                          end
                      end
                | _, _ =>
                    Return (jsonify [("success", JBool false);
                                     ("message", JStr "error minting NFT.")] 400)
                end
            end
        | None, _, _ => Throw   (* [users[None]] *)
        end
  end.

(** The six [append]s of [upload], in their order: the record afterwards,
    and whether all six were made.  A list key that the record does not
    have raises [KeyError], the lists appended to before it staying so. *)
Definition append_nft (r : User.t) (nft_name description image : string)
    (lat long_val : option string) (rar : option Z) : User.t * bool :=
  match User.nft_names r with
  | None => (r, false)
  | Some l =>
  let r := User.set_nft_names (l ++ [nft_name]) r in
  match User.descriptions r with
  | None => (r, false)
  | Some l =>
  let r := User.set_descriptions (l ++ [description]) r in
  match User.image_paths r with
  | None => (r, false)
  | Some l =>
  let r := User.set_image_paths (l ++ [image]) r in
  match User.latitude r with
  | None => (r, false)
  | Some l =>
  let r := User.set_latitude (l ++ [lat]) r in
  match User.longitude r with
  | None => (r, false)
  | Some l =>
  let r := User.set_longitude (l ++ [long_val]) r in
  match User.rarity r with
  | None => (r, false)
  | Some l => (User.set_rarity (l ++ [rar]) r, true)
  end end end end end end.

(** [upload]: the requests made, the response and the state afterwards;
    [disk] is how the write of [save_users] ends.  The outer handler
    turns every exception into [internal_error], also the [KeyError] of
    an [append] and the exception of the write, which come after the
    requests and leave [users] as the appends made it. *)
Definition upload (st : state) (f : upload_form)
    (disk : write (gmap string User.t))
  : list request * response * state :=
  match upload_minting st f with
  | Return r => ([], r, st)
  | Throw => ([], internal_error, st)
  | Go (username, nft_name, description, image) =>
      let (t, o) := upload_rarity (form_latitude f) (form_longitude f) in
      match o, users st !! username with
      | Val rar, Some r =>
          let (r, appended) :=
            append_nft r nft_name description image
              (form_latitude f) (form_longitude f) rar in
          let st :=
            {| users := <[username := r]> (users st);
               users_file := users_file st |} in
          if appended then
            match save_users disk (users st) with
            | (Go _, users_file) =>
                (t,
                 jsonify [("success", JBool true);
                          ("message", JStr "NFT minted and sent successfully!")]
                   200,
                 {| users := users st; users_file := users_file |})
            | (_, users_file) =>
                (t, internal_error,
                 {| users := users st; users_file := users_file |})
            end
          else (t, internal_error, st)
      | _, _ => (t, internal_error, st)
      end
  end.

End Routes.
End AppRoutes.

(** * Vocabulary of the properties *)

(** ** What a reply holds *)

(** The elements of an Overpass reply; none when the key is missing or
    the request failed. *)
Definition reply_elements (r : reply overpass_data) : list element :=
  match r with
  | Json data => default [] (data_elements data)
  | Failed _ => []
  end.

(** The rows of a SPARQL reply; none when a key is missing or the request
    failed. *)
Definition reply_rows (r : reply sparql_data) : list (gmap string string) :=
  match r with
  | Json data => default [] (data_results data ≫= results_bindings)
  | Failed _ => []
  end.

(** The candidates a search reply gives; none when the key is missing or
    the request failed. *)
Definition reply_ids (r : reply search_data) : list string :=
  match r with
  | Json data => default [] (data_search data)
  | Failed _ => []
  end.

(** A JSON object with string values, a SPARQL reply with the given rows,
    and an Overpass reply with the given tag sets. *)
Definition obj (kvs : list (string * string)) : gmap string string :=
  list_to_map kvs.

Definition sparql_rows (rows : list (gmap string string)) : reply sparql_data :=
  Json {| data_results := Some {| results_bindings := Some rows |} |}.

Definition overpass_tags (els : list (gmap string string)) : reply overpass_data :=
  Json {| data_elements :=
            Some (map (fun t => {| element_tags := Some t |}) els) |}.

Definition search_ids (ids : list string) : reply search_data :=
  Json {| data_search := Some ids |}.

(** ** Elements and their areas *)

(** The wikidata tag of an element, if it has tags and that tag. *)
Definition wikidata_of (e : element) : option string :=
  match element_tags e with Some tags => tags !! "wikidata" | None => None end.

Definition name_of (e : element) : option string :=
  match element_tags e with Some tags => tags !! "name" | None => None end.

(** The level tag of an element as an integer, if it has one that parses. *)
Definition level_of (py_int : string -> option Z) (e : element) : option Z :=
  match element_tags e with
  | Some tags => tags !! "admin_level" ≫= py_int
  | None => None
  end.

(** The area dict made from a retained element. *)
Definition area_of (py_int : string -> option Z) (e : element) : option Area.t :=
  match wikidata_of e with
  | Some w =>
      Some {| Area.name := name_of e;
              Area.wikidata_id := w;
              Area.admin_level := default 99 (level_of py_int e) |}
  | None => None
  end.

(** The list the boundary query returns for a coordinate. *)
Definition located (py_int : string -> option Z) (net : upstream)
    (lat lon : float) : list Area.t :=
  sorted_reverse Area.admin_level
    (omap (area_of py_int) (reply_elements (overpass net lat lon))).

(** [a] may stand before [b] in a list that is descending by key. *)
Definition descends {A : Type} (key : A -> Z) (a b : A) : Prop :=
  key b <= key a.

(** ** Answers of a lookup *)

(** The messages of a failed lookup that the two modules share. *)
Definition no_data_found : string :=
  "No population or area data found for this Wikidata ID.".
Definition request_failed (msg : string) : string := "Request failed: " +:+ msg.

(** The record with a density, for a population and an area. *)
Definition with_density (population : Z) (a : float) : Density.t :=
  {| Density.population := population;
     Density.area_km2 := VFloat a;
     Density.population_density :=
       VFloat (SFdiv prec emax (float_of_int population) a) |}.

(** The record built from a population and what the area literal gave:
    a density when the area is a float other than zero, the two
    placeholder strings otherwise. *)
Definition density_record (population : Z) (area : option float) : Density.t :=
  match area with
  | Some a =>
      if float_truth a then
        with_density population a
      else App.no_area_data population
  | None => App.no_area_data population
  end.

(** The answer to a lookup as a function of the reply, [invalid] being the
    module's message for an unusable population. *)
Definition lookup_answer (invalid : string) (py_int : string -> option Z)
    (py_float : string -> option float) (r : reply sparql_data)
  : answer Density.t :=
  match r with
  | Failed msg => Error (request_failed msg)
  | Json _ =>
      match reply_rows r with
      | [] => Error no_data_found
      | row :: _ =>
          match row !! "population" ≫= py_int with
          | None => Error invalid
          | Some n => Data (density_record n (row !! "area" ≫= py_float))
          end
      end
  end.

(** The lookup cannot convert the population: the first row has an integer
    population beyond the double range and an area value that is a float
    other than zero, so that the division is reached. *)
Definition overflows (py_int : string -> option Z)
    (py_float : string -> option float) (r : reply sparql_data) : bool :=
  match reply_rows r with
  | row :: _ =>
      match row !! "population" ≫= py_int, row !! "area" ≫= py_float with
      | Some n, Some a => float_truth a && too_large n
      | _, _ => false
      end
  | [] => false
  end.

(** How a lookup ends, as a function of the reply: it raises
    [OverflowError] where the population cannot be converted, and returns
    its answer otherwise. *)
Definition lookup_outcome (invalid : string) (py_int : string -> option Z)
    (py_float : string -> option float) (r : reply sparql_data)
  : outcome (answer Density.t) :=
  if overflows py_int py_float r then Raise OverflowError
  else Val (lookup_answer invalid py_int py_float r).

(** The lookup of [id] fails: it returns a dict with the key ["error"]. *)
Definition lookup_fails (py_int : string -> option Z)
    (py_float : string -> option float) (net : upstream) (id : string) : Prop :=
  exists msg,
    result (App.get_population_and_area_wikidata py_int py_float net id)
    = Val (Error msg).

(** The reply of [net], with the area value removed from the first row of
    the reply for [id]. *)
Definition without_area (net : upstream) (id : string) : upstream := {|
  overpass := overpass net;
  sparql := fun id' =>
    if String.eqb id' id then
      match reply_rows (sparql net id) with
      | row :: rest => sparql_rows (delete "area" row :: rest)
      | [] => sparql net id
      end
    else sparql net id';
  wbsearch := wbsearch net
|}.

(** ** Answers of a resolution *)

(** The dict returned for [area] from the record [d]; [alt] is the
    alternative identifier that gave the record, if one did. *)
Definition resolved (area : Area.t) (d : Density.t) (alt : option string)
  : answer Resolution.t :=
  Data {| Resolution.location := Area.name area;
          Resolution.admin_level := Area.admin_level area;
          Resolution.population := Density.population d;
          Resolution.area_km2 := Density.area_km2 d;
          Resolution.population_density := Density.population_density d;
          Resolution.wikidata_id := alt |}.

(** The two messages of a failed resolution. *)
Definition no_areas_found : string :=
  "No administrative areas found for this location.".
Definition no_valid_data : string :=
  "Could not fetch population or area data from Wikidata for any administrative area.".

(** ** The claims that do not hold as worded *)

(** The tiers as the specification words them: tier 1 exactly on
    [0 <= d < 25], tier 2 on [25 <= d < 100], tier 3 on [100 <= d < 500],
    tier 4 on [500 <= d], and no tier for a value that is not a number. *)
Definition tiers_as_specified (d : value) : Prop :=
  (App.determine_rarity d = Some 1 <->
     value_ge d 0 = true /\ value_lt d 25 = true) /\
  (App.determine_rarity d = Some 2 <->
     value_ge d 25 = true /\ value_lt d 100 = true) /\
  (App.determine_rarity d = Some 3 <->
     value_ge d 100 = true /\ value_lt d 500 = true) /\
  (App.determine_rarity d = Some 4 <-> value_ge d 500 = true) /\
  (is_number d = false -> App.determine_rarity d = None).





(** C8 as the specification words it: the areas returned are those of the
    elements that carry both a name and a wikidata identifier. *)
Definition retained_as_specified (py_int : string -> option Z)
    (els : list element) (areas : list Area.t) : Prop :=
  areas ≡ₚ omap (area_of py_int)
    (filter (fun e => is_Some (name_of e) /\ is_Some (wikidata_of e)) els).

(** ** Sample readers and replies for the examples

    [sample_int] and [sample_float] read plain decimal literals
    ([-12], [1000.5]) as Python's [int] and [float] do; they stand in for
    the two builtins wherever an example needs to run the program. *)

Definition digit (c : ascii) : option Z :=
  let n := Z.of_N (Ascii.N_of_ascii c) in
  if (48 <=? n) && (n <=? 57) then Some (n - 48) else None.

Fixpoint span_digits (s : string) : list Z * string :=
  match s with
  | String c r =>
      match digit c with
      | Some d => let (ds, rest) := span_digits r in (d :: ds, rest)
      | None => ([], s)
      end
  | EmptyString => ([], EmptyString)
  end.

Definition number_of (ds : list Z) : Z := foldl (fun a d => 10 * a + d) 0 ds.

Definition strip_sign (s : string) : bool * string :=
  match s with
  | String "-"%char r => (true, r)
  | String "+"%char r => (false, r)
  | _ => (false, s)
  end.

Definition sample_int (s : string) : option Z :=
  let (neg, r) := strip_sign s in
  match span_digits r with
  | ((_ :: _) as ds, EmptyString) =>
      Some (if neg then - number_of ds else number_of ds)
  | _ => None
  end.

Definition sample_float (s : string) : option float :=
  let (neg, r) := strip_sign s in
  let signed (x : float) := if neg then SFopp x else x in
  let (ip, rest) := span_digits r in
  match rest with
  | EmptyString =>
      match ip with
      | [] => None
      | _ => Some (signed (float_of_int (number_of ip)))
      end
  | String "."%char fr =>
      let (fp, rest') := span_digits fr in
      match rest', ip ++ fp with
      | EmptyString, _ :: _ =>
          Some (signed (SFdiv prec emax (float_of_int (number_of (ip ++ fp)))
                                        (float_of_int (10 ^ Z.of_nat (length fp)))))
      | _, _ => None
      end
  | _ => None
  end.

(** A town (level 8, Q1) inside a county (level 4, Q2).  Q1 has no rows;
    a search for the town's name finds Q1 again and Q9, which has data. *)
Definition town_net : upstream := {|
  overpass := fun _ _ =>
    overpass_tags
      [ obj [("name", "Shire"); ("wikidata", "Q2"); ("admin_level", "4")];
        obj [("name", "Town"); ("wikidata", "Q1"); ("admin_level", "8")] ];
  sparql := fun id =>
    if String.eqb id "Q9" then
      sparql_rows [obj [("population", "500000"); ("area", "1000.0")]]
    else if String.eqb id "Q2" then
      sparql_rows [obj [("population", "1000000")]]
    else sparql_rows [];
  wbsearch := fun name =>
    match name with
    | Some "Town" => search_ids ["Q1"; "Q9"]
    | _ => search_ids []
    end
|}.

(** The same place when the search only finds Q1 and Q7, and Q7 cannot be
    reached. *)
Definition county_net : upstream := {|
  overpass := overpass town_net;
  sparql := fun id =>
    if String.eqb id "Q7" then Failed "timed out"
    else if String.eqb id "Q2" then
      sparql_rows [obj [("population", "1000000")]]
    else sparql_rows [];
  wbsearch := fun name =>
    match name with
    | Some "Town" => search_ids ["Q1"; "Q7"]
    | _ => Failed "timed out"
    end
|}.

(** A place whose only area has no data under any identifier. *)
Definition barren_net : upstream := {|
  overpass := fun _ _ =>
    overpass_tags [obj [("name", "Town"); ("wikidata", "Q1")]];
  sparql := fun id =>
    if String.eqb id "Q7" then Failed "timed out" else sparql_rows [];
  wbsearch := fun _ => search_ids ["Q1"; "Q7"; "Q8"]
|}.

(** A reply with one element that has a wikidata tag and no name. *)
Definition nameless_net : upstream := {|
  overpass := fun _ _ =>
    overpass_tags [obj [("wikidata", "Q1"); ("admin_level", "8")]];
  sparql := fun _ => sparql_rows [];
  wbsearch := fun _ => search_ids []
|}.

(** Six elements: levels 6, none, one that is no integer, 8, 6 again, and
    an element without a wikidata tag. *)
Definition levels_net : upstream := {|
  overpass := fun _ _ =>
    overpass_tags
      [ obj [("name", "a"); ("wikidata", "Q10"); ("admin_level", "6")];
        obj [("name", "b"); ("wikidata", "Q11")];
        obj [("name", "c"); ("wikidata", "Q12"); ("admin_level", "six")];
        obj [("name", "d"); ("wikidata", "Q13"); ("admin_level", "8")];
        obj [("name", "e"); ("wikidata", "Q14"); ("admin_level", "6")];
        obj [("name", "f"); ("admin_level", "10")] ];
  sparql := fun _ => sparql_rows [];
  wbsearch := fun _ => search_ids []
|}.

(** Replies that exercise one lookup: Q9 has a population and an area,
    Q2 no area, Q5 a negative area, Q0 an area of zero, Q3 a row without a
    population, Q4 a population that is not an integer, Q7 cannot be
    reached, and anything else has no rows. *)
Definition census_net : upstream := {|
  overpass := fun _ _ => Failed "not used";
  sparql := fun id =>
    if String.eqb id "Q9" then
      sparql_rows [obj [("population", "500000"); ("area", "1000.0")]]
    else if String.eqb id "Q2" then
      sparql_rows [obj [("population", "1000000")]]
    else if String.eqb id "Q5" then
      sparql_rows [obj [("population", "1000000"); ("area", "-5")]]
    else if String.eqb id "Q0" then
      sparql_rows [obj [("population", "1000000"); ("area", "0.0")]]
    else if String.eqb id "Q3" then
      sparql_rows [obj [("area", "12")]]
    else if String.eqb id "Q4" then
      sparql_rows [obj [("population", "many")]]
    else if String.eqb id "Q7" then Failed "timed out"
    else sparql_rows [];
  wbsearch := fun _ => Failed "not used"
|}.

(** A population count of 401 digits, beyond the range of the doubles. *)
Fixpoint zeros (n : nat) : string :=
  match n with
  | O => EmptyString
  | S n => String "0"%char (zeros n)
  end.

Definition beyond_doubles : string := String "1"%char (zeros 400).

(** A place whose one area reports that population, and an area. *)
Definition crowded_net : upstream := {|
  overpass := fun _ _ =>
    overpass_tags
      [obj [("name", "Town"); ("wikidata", "Q6"); ("admin_level", "8")]];
  sparql := fun _ =>
    sparql_rows [obj [("population", beyond_doubles); ("area", "1000.0")]];
  wbsearch := fun _ => search_ids []
|}.

Definition here : float := float_of_int 27.
Definition there : float := float_of_int 88.

(** ** Vocabulary of the further properties *)

(** An area is exhausted when the lookup of its identifier fails and so
    does the lookup of every candidate of its search, its own identifier
    apart. *)
Definition exhausted (py_int : string -> option Z)
    (py_float : string -> option float) (net : upstream) (area : Area.t)
  : Prop :=
  lookup_fails py_int py_float net (Area.wikidata_id area) /\
  forall c, c ∈ reply_ids (wbsearch net (Area.name area)) ->
    c <> Area.wikidata_id area -> lookup_fails py_int py_float net c.

(** The candidates of an area's search that the inner loop does fetch. *)
Definition fetched_candidates (net : upstream) (area : Area.t) : list string :=
  filter (fun c => c <> Area.wikidata_id area)
    (reply_ids (wbsearch net (Area.name area))).

(** The most requests a resolution over [areas] can make: the boundary
    query, and per area one lookup, one search and one lookup per
    candidate other than the area's own identifier. *)
Definition request_budget (net : upstream) (areas : list Area.t) : nat :=
  (1 + sum_list (map (fun a => 2 + length (fetched_candidates net a)) areas))%nat.

Definition is_overpass (rq : request) : bool :=
  match rq with GetOverpass _ _ => true | _ => false end.

(** A town (Q9) whose own identifier has data. *)
Definition direct_net : upstream := {|
  overpass := fun _ _ =>
    overpass_tags
      [ obj [("name", "Shire"); ("wikidata", "Q2"); ("admin_level", "4")];
        obj [("name", "Town"); ("wikidata", "Q9"); ("admin_level", "8")] ];
  sparql := sparql census_net;
  wbsearch := fun _ => search_ids ["Q2"]
|}.

(** A place where the boundary service cannot be reached. *)
Definition offline_net : upstream := {|
  overpass := fun _ _ => Failed "connection refused";
  sparql := sparql census_net;
  wbsearch := fun _ => search_ids []
|}.

(** ** Vocabulary of the routes *)

Definition status (r : response) : Z := r.2.

(** The status a route answers with, if it does not raise. *)
Definition flow_status (f : flow response) : option Z :=
  match f with
  | Return r => Some (status r)
  | _ => None
  end.


Definition app_saved (st : AppRoutes.state) : Prop :=
  AppRoutes.users_file st = Holds (AppRoutes.users st).

(** The six lists of a user are read by position: entry [i] of each
    belongs to the user's [i]-th NFT.  A record has all six, of one
    length, or (written by [src/appwsolanapubkey.py]) none of them. *)
Definition aligned_user (r : User.t) : Prop :=
  (User.nft_names r = None /\ User.descriptions r = None /\
   User.image_paths r = None /\ User.latitude r = None /\
   User.longitude r = None /\ User.rarity r = None) \/
  exists names descs paths lats lons rars,
    User.nft_names r = Some names /\ User.descriptions r = Some descs /\
    User.image_paths r = Some paths /\ User.latitude r = Some lats /\
    User.longitude r = Some lons /\ User.rarity r = Some rars /\
    length descs = length names /\ length paths = length names /\
    length lats = length names /\ length lons = length names /\
    length rars = length names.

Definition is_tier (rar : option Z) : Prop :=
  rar = None \/ exists k, rar = Some k /\ 1 <= k <= 4.

Definition aligned (st : AppRoutes.state) : Prop :=
  forall u r, AppRoutes.users st !! u = Some r ->
    aligned_user r /\ Forall is_tier (default [] (User.rarity r)).

(** The credentials of a user. *)
Definition credentials (r : User.t) : string * string * string :=
  (User.password r, User.solana_public_key r, User.solana_private_key r).

(** The records that the two signups store for a password and a wallet,
    [token] being the secret key as encrypted. *)
Definition account (p : string) (w : Wallet.t) (token : string) : User.t :=
  {| User.password := p;
     User.solana_public_key := Wallet.public_key w;
     User.solana_private_key := token;
     User.nft_names := None;
     User.descriptions := None;
     User.image_paths := None;
     User.latitude := None;
     User.longitude := None;
     User.rarity := None |}.

Definition app_account (p : string) (w : Wallet.t) (token : string) : User.t :=
  {| User.password := p;
     User.solana_public_key := Wallet.public_key w;
     User.solana_private_key := token;
     User.nft_names := Some [];
     User.descriptions := Some [];
     User.image_paths := Some [];
     User.latitude := Some [];
     User.longitude := Some [];
     User.rarity := Some [] |}.

(** A cipher for the examples, and what node prints there. *)
Definition sample_encrypt (s : string) : string := "enc:" +:+ s.

Definition sample_decrypt (s : string) : option string :=
  match s with
  | String "e" (String "n" (String "c" (String ":" rest))) => Some rest
  | _ => None
  end.

Definition sample_wallet : Wallet.t :=
  {| Wallet.public_key := "7xKX"; Wallet.secret_key := "5JdQ" |}.

Definition sample_check_output (command : list string) : process :=
  match command with
  | _ :: "mintNft.js" :: _ => Output "NFT created with address: 9fGh"
  | _ => Output "sent"
  end.

Definition sample_search_mint_address (out : string) : option string :=
  match out with
  | EmptyString => None
  | _ => Some "9fGh"
  end.

Definition sample_form : AppRoutes.upload_form :=
  {| AppRoutes.form_username := Some "ada";
     AppRoutes.form_name := Some "Dune";
     AppRoutes.form_description := Some "A dune at dusk";
     AppRoutes.form_latitude := Some "27";
     AppRoutes.form_longitude := Some "88";
     AppRoutes.files_image := Some "dune.png" |}.

(** The two servers with no user, as a start on no file leaves them. *)
Definition nobody : AppWSolanaPubkey.state :=
  {| AppWSolanaPubkey.users := ∅; AppWSolanaPubkey.users_file := Holds ∅ |}.

Definition app_nobody : AppRoutes.state :=
  {| AppRoutes.users := ∅; AppRoutes.users_file := Holds ∅ |}.

(** The server of [src/app.py] after the signup of [ada]. *)
Definition ada_signed_up : AppRoutes.state :=
  (AppRoutes.signup sample_encrypt app_nobody
     (Some "ada") (Some "pw") sample_wallet Written).2.

(** What [upload] has done and seen when it reaches the rarity. *)
Definition minted (check_output : list string -> process)
    (search_mint_address : string -> option string)
    (store_image : string -> bool)
    (st : AppRoutes.state) (f : AppRoutes.upload_form)
    (username nft_name description image : string) (r : User.t)
  : Prop :=
  (exists filename,
     AppRoutes.files_image f = Some filename /\ filename <> EmptyString /\
     image = os_path_join "uploads" filename) /\
  store_image image = true /\
  AppRoutes.form_username f = Some username /\
  AppRoutes.form_name f = Some nft_name /\
  AppRoutes.form_description f = Some description /\
  AppRoutes.users st !! username = Some r /\
  exists out mint_address sent,
    check_output ["node"; "mintNft.js"; image; nft_name; "MYNFT"; description]
    = Output out /\
    search_mint_address out = Some mint_address /\
    check_output ["node"; "sendNft.js"; mint_address;
                  User.solana_public_key r] = Output sent.

(** The record has its six lists. *)
Definition has_lists (r : User.t) : Prop :=
  is_Some (User.nft_names r) /\ is_Some (User.descriptions r) /\
  is_Some (User.image_paths r) /\ is_Some (User.latitude r) /\
  is_Some (User.longitude r) /\ is_Some (User.rarity r).

(** A POST with its five fields filled in. *)
Definition filled (req : AppWSolanaPubkey.upload_request)
    (username nft_name description filename recipient_pubkey : string)
  : Prop :=
  AppWSolanaPubkey.post req = true /\
  AppWSolanaPubkey.form_username req = Some username /\
  AppWSolanaPubkey.form_name req = Some nft_name /\
  AppWSolanaPubkey.form_description req = Some description /\
  AppWSolanaPubkey.files_image req = Some filename /\
  AppWSolanaPubkey.form_recipient req = Some recipient_pubkey /\
  username <> EmptyString /\ nft_name <> EmptyString /\
  description <> EmptyString /\ filename <> EmptyString /\
  recipient_pubkey <> EmptyString.

Definition sample_request : AppWSolanaPubkey.upload_request :=
  {| AppWSolanaPubkey.post := true;
     AppWSolanaPubkey.form_username := Some "ada";
     AppWSolanaPubkey.form_name := Some "Dune";
     AppWSolanaPubkey.form_description := Some "A dune at dusk";
     AppWSolanaPubkey.form_recipient := Some "7xKX";
     AppWSolanaPubkey.files_image := Some "dune.png" |}.

(** * Properties *)

(** ** Order on floats *)

Section FloatOrder.
Implicit Types x y z : float.

Lemma SFcompare_antisym x y :
  SFcompare y x = option_map CompOpp (SFcompare x y).
Proof.
  destruct x as [sx|sx| |sx mx ex], y as [sy|sy| |sy my ey]; simpl;
    try reflexivity;
    try (destruct sx; reflexivity); try (destruct sy; reflexivity);
    try (destruct sx, sy; reflexivity).
  f_equal. change (Pos.compare_cont Eq) with Pos.compare.
  destruct sx, sy; simpl; try reflexivity;
    rewrite (Z.compare_antisym ex ey), (Pos.compare_antisym mx my);
    destruct (ex ?= ey), (mx ?= my)%positive; reflexivity.
Qed.

Lemma float_lt_not_nan x y : float_lt x y = true -> is_nan x = false.
Proof. unfold float_lt, SFltb. destruct x; simpl; congruence. Qed.

Lemma float_le_not_nan x y : float_le x y = true -> is_nan y = false.
Proof.
  unfold float_le, SFleb. destruct x, y; simpl; congruence.
Qed.

(** Two numbers are comparable: one of [x < y] and [y <= x] holds. *)
Lemma float_lt_or_ge x y :
  is_nan x = false -> is_nan y = false ->
  float_lt x y = negb (float_le y x).
Proof.
  unfold float_lt, float_le, SFltb, SFleb. intros Hx Hy.
  rewrite (SFcompare_antisym x y).
  destruct (SFcompare x y) as [[]|] eqn:E; simpl; try reflexivity.
  destruct x, y; simpl in *; congruence.
Qed.

Lemma float_le_lt_trans x y z :
  float_le x y = true -> float_lt y z = true -> float_lt x z = true.
Proof.
  unfold float_le, float_lt, SFleb, SFltb.
  destruct x as [sx|sx| |sx mx ex], y as [sy|sy| |sy my ey],
           z as [sz|sz| |sz mz ez]; simpl;
    try discriminate; try reflexivity;
    try (destruct sx; simpl; congruence);
    try (destruct sy; simpl; congruence);
    try (destruct sz; simpl; congruence);
    try (destruct sx, sy; simpl; congruence);
    try (destruct sy, sz; simpl; congruence);
    try (destruct sx, sz; simpl; congruence);
    try (destruct sx, sy, sz; simpl; congruence).
  change (Pos.compare_cont Eq) with Pos.compare.
  destruct sx, sy, sz; simpl; try discriminate; try reflexivity;
    destruct (Z.compare_spec ex ey), (Z.compare_spec ey ez),
             (Z.compare_spec ex ez);
    destruct (Pos.compare_spec mx my), (Pos.compare_spec my mz),
             (Pos.compare_spec mx mz);
    simpl; try discriminate; try reflexivity; intros _ _; exfalso; lia.
Qed.

End FloatOrder.

Lemma float_ge_lt_false (a x : float) :
  float_le a x = true -> float_lt x a = false.
Proof.
  unfold float_le, float_lt, SFleb, SFltb. rewrite (SFcompare_antisym x a).
  destruct (SFcompare x a) as [[]|]; simpl; congruence.
Qed.

Lemma float_lt_false_ge (a x : float) :
  is_nan a = false -> is_nan x = false ->
  float_lt x a = false -> float_le a x = true.
Proof.
  intros Ha Hx H. rewrite (float_lt_or_ge x a Hx Ha) in H.
  now apply negb_false_iff in H.
Qed.

Lemma float_ge_mono (a b x : float) :
  float_lt a b = true -> float_le b x = true -> float_le a x = true.
Proof.
  intros Hab Hbx.
  pose proof (float_le_not_nan _ _ Hbx) as Hx.
  pose proof (float_lt_not_nan _ _ Hab) as Ha.
  apply float_lt_false_ge; trivial.
  destruct (float_lt x a) eqn:E; trivial.
  pose proof (float_le_lt_trans _ _ _ Hbx E) as Hba.
  apply float_ge_lt_false in Hbx.
  assert (float_le a b = true) as Hle.
  { unfold float_le, float_lt, SFleb, SFltb in *.
    destruct (SFcompare a b) as [[]|]; congruence. }
  apply float_ge_lt_false in Hle. congruence.
Qed.

(** ** The rarity tiers ([determine_rarity]) *)

Section Rarity.

(** The three thresholds, as a float comparison sees them. *)
Let c25 : float := float_of_int 25.
Let c100 : float := float_of_int 100.
Let c500 : float := float_of_int 500.

(** The tiers of a float, by the three comparisons the code makes. *)
Lemma determine_rarity_float (x : float) :
  App.determine_rarity (VFloat x) =
    if float_lt x c25 then Some 1
    else if float_lt x c100 then Some 2
    else if float_lt x c500 then Some 3
    else Some 4.
Proof. reflexivity. Qed.

Lemma determine_rarity_int (n : Z) :
  App.determine_rarity (VInt n) =
    if n <? 25 then Some 1
    else if n <? 100 then Some 2
    else if n <? 500 then Some 3
    else Some 4.
Proof. reflexivity. Qed.

Lemma float_tiers (x : float) :
  (float_lt x c25 = true -> float_lt x c100 = true /\ float_lt x c500 = true) /\
  (float_lt x c100 = true -> float_lt x c500 = true) /\
  (float_le c25 x = true <-> is_nan x = false /\ float_lt x c25 = false) /\
  (float_le c100 x = true <-> is_nan x = false /\ float_lt x c100 = false) /\
  (float_le c500 x = true <-> is_nan x = false /\ float_lt x c500 = false).
Proof.
  assert (H12 : float_lt c25 c100 = true) by reflexivity.
  assert (H23 : float_lt c100 c500 = true) by reflexivity.
  assert (N1 : is_nan c25 = false) by reflexivity.
  assert (N2 : is_nan c100 = false) by reflexivity.
  assert (N3 : is_nan c500 = false) by reflexivity.
  assert (G : forall a, is_nan a = false ->
            (float_le a x = true <-> is_nan x = false /\ float_lt x a = false)).
  { intros a Na. split.
    - intros H. split; [exact (float_le_not_nan _ _ H)|].
      now apply float_ge_lt_false.
    - intros [Nx H]. now apply float_lt_false_ge. }
  assert (U : forall a b, float_lt a b = true -> is_nan a = false ->
            is_nan b = false -> float_lt x a = true -> float_lt x b = true).
  { intros a b Hab Na Nb Hxa.
    destruct (float_lt x b) eqn:E; trivial.
    pose proof (float_lt_not_nan _ _ Hxa) as Nx.
    pose proof (float_lt_false_ge _ _ Nb Nx E) as Hbx.
    pose proof (float_ge_mono _ _ _ Hab Hbx) as Hax.
    apply float_ge_lt_false in Hax. congruence. }
  clearbody c25 c100 c500.
  split; [|split; [|split; [|split]]]; try (apply G; assumption).
  - intros H. pose proof (U _ _ H12 N1 N2 H) as H'. split; [exact H'|].
    exact (U _ _ H23 N2 N3 H').
  - exact (U _ _ H23 N2 N3).
Qed.

End Rarity.

(** The tiers, case by case. *)
Lemma determine_rarity_cases (d : value) :
  (App.determine_rarity d = Some 1 <-> value_lt d 25 = true) /\
  (App.determine_rarity d = Some 2 <->
     value_ge d 25 = true /\ value_lt d 100 = true) /\
  (App.determine_rarity d = Some 3 <->
     value_ge d 100 = true /\ value_lt d 500 = true) /\
  (App.determine_rarity d = Some 4 <->
     value_ge d 500 = true \/ d = VFloat S754_nan) /\
  (App.determine_rarity d = None <-> is_number d = false).
Proof.
  repeat (match goal with |- _ /\ _ => split end);
    destruct d as [|n|x|s]; try (simpl; intuition congruence).
  all: try (simpl; intuition (try discriminate; congruence)).
  all: try (rewrite determine_rarity_int; simpl;
            destruct (Z.ltb_spec n 25), (Z.ltb_spec n 100), (Z.ltb_spec n 500);
            try destruct (Z.leb_spec 25 n); try destruct (Z.leb_spec 100 n);
            try destruct (Z.leb_spec 500 n);
            intuition (try discriminate; try congruence; try lia)).
  all: rewrite determine_rarity_float;
    destruct (float_tiers x) as (T1 & T2 & G25 & G100 & G500);
    unfold value_ge, value_lt; rewrite ?G25, ?G100, ?G500;
    destruct (float_lt x (float_of_int 25)) eqn:E25;
    destruct (float_lt x (float_of_int 100)) eqn:E100;
    destruct (float_lt x (float_of_int 500)) eqn:E500;
    destruct x; simpl is_nan;
    intuition (try discriminate; try congruence).
Qed.

(** C3, as amended.  For every value [d]: [determine_rarity] gives tier 1
    iff [d] is a number below 25 (negative numbers included, there is no
    lower bound), tier 2 iff [25 <= d < 100], tier 3 iff [100 <= d < 500],
    tier 4 iff [d >= 500] or [d] is the float NaN (which fails all three
    comparisons), and [None] iff [d] is not a number.  The boundary values
    25, 100 and 500 get tiers 2, 3 and 4, as ints and as floats. *)
Theorem determine_rarity_tiers (d : value) :
  (App.determine_rarity d = Some 1 <-> value_lt d 25 = true) /\
  (App.determine_rarity d = Some 2 <->
     value_ge d 25 = true /\ value_lt d 100 = true) /\
  (App.determine_rarity d = Some 3 <->
     value_ge d 100 = true /\ value_lt d 500 = true) /\
  (App.determine_rarity d = Some 4 <->
     value_ge d 500 = true \/ d = VFloat S754_nan) /\
  (App.determine_rarity d = None <-> is_number d = false) /\
  App.determine_rarity (VInt 25) = Some 2 /\
  App.determine_rarity (VInt 100) = Some 3 /\
  App.determine_rarity (VInt 500) = Some 4 /\
  App.determine_rarity (VFloat (float_of_int 25)) = Some 2 /\
  App.determine_rarity (VFloat (float_of_int 100)) = Some 3 /\
  App.determine_rarity (VFloat (float_of_int 500)) = Some 4.
Proof.
  destruct (determine_rarity_cases d) as (T1 & T2 & T3 & T4 & T0).
  split; [exact T1|]. split; [exact T2|]. split; [exact T3|].
  split; [exact T4|]. split; [exact T0|]. repeat split; reflexivity.
Qed.

(** C3 fails as worded.  [-5.0] is a number below 25, so the code returns
    tier 1 for it, while [0 <= -5.0] is false. *)
Lemma determine_rarity_negative :
  ~ tiers_as_specified (VFloat (float_of_int (-5))).
Proof.
  intros (H1 & _).
  assert (E : App.determine_rarity (VFloat (float_of_int (-5))) = Some 1)
    by reflexivity.
  apply H1 in E. destruct E as [E _]. vm_compute in E. discriminate.
Qed.

Example determine_rarity_nan : App.determine_rarity (VFloat S754_nan) = Some 4.
Proof. reflexivity. Qed.

Example determine_rarity_sentinel :
  App.determine_rarity (VStr "Cannot calculate (no area data)") = None.
Proof. reflexivity. Qed.

(** On the densities a real area has (numbers that are at least 0) and
    on values that are not numbers, the tiers are as specified. *)
Lemma tiers_as_specified_nonneg (d : value) :
  value_ge d 0 = true \/ is_number d = false -> tiers_as_specified d.
Proof.
  intros Hd.
  destruct (determine_rarity_cases d) as (T1 & T2 & T3 & T4 & T0).
  unfold tiers_as_specified. rewrite T1, T2, T3, T4, T0.
  split; [|split; [|split; [|split]]]; try tauto.
  - split; [|tauto]. intros L. split; [|exact L].
    destruct Hd as [Hd|Hd]; [exact Hd|].
    destruct d; simpl in *; discriminate.
  - split; [|tauto]. intros [G|G]; [exact G|]. subst d.
    destruct Hd as [Hd|Hd]; vm_compute in Hd; discriminate.
Qed.

(** ** The sample readers *)

Example sample_int_ok :
  sample_int "1000000" = Some 1000000 /\ sample_int "-12" = Some (-12) /\
  sample_int "12.5" = None /\ sample_int "" = None /\ sample_int "many" = None.
Proof. repeat split; reflexivity. Qed.

Example sample_float_ok :
  sample_float "1000.0" = Some (float_of_int 1000) /\
  sample_float "-5" = Some (float_of_int (-5)) /\
  sample_float "0.0" = Some float_zero /\
  sample_float "0.5" = Some (S754_finite false 4503599627370496 (-53)) /\
  sample_float "large" = None.
Proof. repeat split; vm_compute; reflexivity. Qed.

(** ** What one lookup returns ([get_population_and_area_wikidata]) *)

Section Lookup.
Context (py_int : string -> option Z) (py_float : string -> option float).
Context (net : upstream).

Ltac lookup_cases id :=
  destruct (sparql net id) as [msg|[[[[[|row rest]|]]|]]]; simpl;
  try reflexivity;
  unfold getitem, parse;
  destruct (row !! "population") as [v|]; simpl; try reflexivity;
  destruct (py_int v) as [n|]; simpl; try reflexivity;
  destruct (row !! "area") as [w|]; simpl; try reflexivity;
  destruct (py_float w) as [a|]; simpl; try reflexivity;
  unfold truediv, int_to_float, float_truth, bind;
  destruct (float_eq a float_zero); simpl; try reflexivity;
  destruct (too_large n); reflexivity.

Lemma App_lookup (id : string) :
  App.get_population_and_area_wikidata py_int py_float net id =
    ([GetSparql id],
     lookup_outcome "Population data is not valid."
       py_int py_float (sparql net id)).
Proof.
  unfold App.get_population_and_area_wikidata, lookup_outcome, overflows,
    lookup_answer, reply_rows, density_record, try_except, try_except_else,
    http_get, bind.
  lookup_cases id.
Qed.

Lemma PopulationDensity_lookup (id : string) :
  PopulationDensity.get_population_and_area_wikidata py_int py_float net id =
    ([GetSparql id],
     lookup_outcome "Population data is not in a valid format."
       py_int py_float (sparql net id)).
Proof.
  unfold PopulationDensity.get_population_and_area_wikidata, lookup_outcome,
    overflows, lookup_answer, reply_rows, density_record, try_except,
    try_except_else, http_get, bind.
  lookup_cases id.
Qed.

End Lookup.




(** ** Density and area of a successful lookup *)



Example lookup_without_area :
  App.get_population_and_area_wikidata sample_int sample_float census_net "Q2"
    = ([GetSparql "Q2"],
       Val (Data {| Density.population := 1000000;
                    Density.area_km2 := VStr "Unknown";
                    Density.population_density :=
                      VStr "Cannot calculate (no area data)" |})) /\
  App.determine_rarity (VStr "Cannot calculate (no area data)") = None.
Proof. split; reflexivity. Qed.


Example lookup_negative_area_density :
  App.get_population_and_area_wikidata sample_int sample_float census_net "Q5"
    = ([GetSparql "Q5"],
       Val (Data {| Density.population := 1000000;
                    Density.area_km2 := VFloat (float_of_int (-5));
                    Density.population_density := VFloat (float_of_int (-200000)) |})).
Proof. vm_compute. reflexivity. Qed.

(** A population of 401 digits with an area of 1000.0: the integer cannot
    be converted for the division, and the lookup raises in both
    modules. *)
Example lookup_overflow :
  App.get_population_and_area_wikidata sample_int sample_float crowded_net "Q6"
    = ([GetSparql "Q6"], Raise OverflowError) /\
  PopulationDensity.get_population_and_area_wikidata sample_int sample_float
    crowded_net "Q6"
    = ([GetSparql "Q6"], Raise OverflowError) /\
  too_large (10 ^ 400) = true /\ too_large (10 ^ 308) = false.
Proof. repeat split; vm_compute; reflexivity. Qed.

(** ** No division by zero *)

(** C10.  In both modules, for every reply: the lookup never raises
    [ZeroDivisionError]; a record with a numeric density was computed from
    an area value that is a float other than zero; and an area of zero
    ([0.0] or [-0.0]) gives exactly what the same reply without an area
    value gives, the record with ["Unknown"] and the density placeholder. *)
Theorem lookup_never_divides_by_zero (py_int : string -> option Z)
    (py_float : string -> option float) (net : upstream) (id : string) :
  let app := App.get_population_and_area_wikidata py_int py_float in
  let pd := PopulationDensity.get_population_and_area_wikidata py_int py_float in
  (result (app net id) <> Raise ZeroDivisionError /\
   result (pd net id) <> Raise ZeroDivisionError) /\
  (forall d x, result (app net id) = Val (Data d) \/
               result (pd net id) = Val (Data d) ->
     Density.population_density d = VFloat x ->
     exists row rest v a,
       reply_rows (sparql net id) = row :: rest /\
       row !! "area" = Some v /\ py_float v = Some a /\
       float_eq a float_zero = false /\
       x = SFdiv prec emax (float_of_int (Density.population d)) a) /\
  (forall row rest n v a,
     reply_rows (sparql net id) = row :: rest ->
     row !! "population" ≫= py_int = Some n ->
     row !! "area" = Some v -> py_float v = Some a ->
     float_eq a float_zero = true ->
     app net id = ([GetSparql id], Val (Data (App.no_area_data n))) /\
     pd net id = ([GetSparql id], Val (Data (PopulationDensity.no_area_data n))) /\
     app (without_area net id) id = app net id /\
     pd (without_area net id) id = pd net id).
Proof.
  intros app pd. subst app pd. rewrite !App_lookup, !PopulationDensity_lookup.
  unfold lookup_outcome, result. cbn [snd].
  split; [split; destruct (overflows _ _ _); discriminate|]. split.
  - intros d x H Hx.
    assert (exists invalid,
      lookup_answer invalid py_int py_float (sparql net id) = Data d) as [inv E].
    { destruct (overflows _ _ _); destruct H as [[= H]|[= H]]; eauto. }
    clear H. unfold lookup_answer in E.
    destruct (sparql net id) as [msg|data]; [discriminate E|].
    destruct (reply_rows (Json data)) as [|row rest]; [discriminate E|].
    destruct (row !! "population" ≫= py_int) as [n|]; [|discriminate E].
    injection E as <-. unfold density_record in Hx |- *.
    destruct (row !! "area") as [v|] eqn:A; simpl in *; [|discriminate Hx].
    destruct (py_float v) as [a|] eqn:F; [|discriminate Hx].
    unfold float_truth in *.
    destruct (float_eq a float_zero) eqn:Z; simpl in *; [discriminate Hx|].
    injection Hx as <-. exists row, rest, v, a. auto.
  - intros row rest n v a R P A F Z.
    unfold overflows, lookup_answer. simpl. rewrite String.eqb_refl, R.
    destruct (sparql net id) as [msg|data]; [discriminate R|].
    change (reply_rows (sparql_rows (delete "area" row :: rest)))
      with (delete "area" row :: rest).
    cbv beta iota delta [sparql_rows].
    rewrite lookup_delete_ne by discriminate.
    rewrite P, lookup_delete_eq, A. simpl. rewrite F.
    unfold density_record, float_truth. rewrite Z. simpl. auto.
Qed.

Lemma lookup_never_divides_by_zero_witness :
  App.get_population_and_area_wikidata sample_int sample_float census_net "Q0"
    = ([GetSparql "Q0"], Val (Data (App.no_area_data 1000000))).
Proof.
  refine (proj1 (proj2 (proj2
    (lookup_never_divides_by_zero sample_int sample_float census_net "Q0"))
    (obj [("population", "1000000"); ("area", "0.0")]) [] 1000000 "0.0"
    float_zero _ _ _ _ _)); vm_compute; reflexivity.
Defined.

(** ** [sorted(..., reverse=True)] *)

Section SortedReverse.
Context {A : Type} (key : A -> Z).

Lemma insert_reverse_perm (x : A) (l : list A) :
  insert_reverse key x l ≡ₚ x :: l.
Proof.
  induction l as [|y l IH]; simpl; [reflexivity|].
  destruct (key x <? key y); [|reflexivity].
  rewrite IH. apply Permutation_swap.
Qed.

Lemma sorted_reverse_perm (l : list A) : sorted_reverse key l ≡ₚ l.
Proof.
  induction l as [|x l IH]; simpl; [reflexivity|].
  rewrite insert_reverse_perm. now rewrite IH.
Qed.

Lemma insert_reverse_descending (x : A) (l : list A) :
  StronglySorted (descends key) l -> StronglySorted (descends key) (insert_reverse key x l).
Proof.
  induction 1 as [|y l S IH F]; simpl.
  - repeat constructor.
  - destruct (Z.ltb_spec (key x) (key y)) as [L|G].
    + constructor; [exact IH|].
      rewrite insert_reverse_perm. constructor; [unfold descends; lia|exact F].
    + constructor; [constructor; assumption|].
      constructor; [exact G|].
      eapply Forall_impl; [exact F|]. unfold descends. intros; lia.
Qed.

Lemma sorted_reverse_descending (l : list A) :
  StronglySorted (descends key) (sorted_reverse key l).
Proof.
  induction l as [|x l IH]; simpl; [constructor|].
  now apply insert_reverse_descending.
Qed.

(** Stability: the elements of any one key keep their order. *)
Lemma insert_reverse_stable (k : Z) (x : A) (l : list A) :
  filter (fun y => key y = k) (insert_reverse key x l)
  = filter (fun y => key y = k) (x :: l).
Proof.
  induction l as [|y l IH]; simpl; [reflexivity|].
  destruct (Z.ltb_spec (key x) (key y)) as [L|G]; [|reflexivity].
  rewrite !filter_cons in *.
  destruct (decide (key y = k)), (decide (key x = k)); try lia;
    rewrite IH; reflexivity.
Qed.

Lemma sorted_reverse_stable (k : Z) (l : list A) :
  filter (fun y => key y = k) (sorted_reverse key l)
  = filter (fun y => key y = k) l.
Proof.
  induction l as [|x l IH]; simpl; [reflexivity|].
  rewrite insert_reverse_stable, !filter_cons, IH. reflexivity.
Qed.

(** In a descending list nothing with a larger key follows. *)
Lemma descending_split (l1 l2 : list A) (a b : A) :
  StronglySorted (descends key) (l1 ++ a :: l2) -> b ∈ l2 -> key b <= key a.
Proof.
  intros S Hb. apply StronglySorted_app_1_r in S.
  apply StronglySorted_inv in S as [_ F].
  rewrite Forall_forall in F. apply F, Hb.
Qed.

End SortedReverse.

(** ** The enclosing areas ([get_osm_administrative_areas]) *)

Section Locate.
Context (py_int : string -> option Z) (net : upstream).

Ltac collect_cases IH :=
  unfold area_of, wikidata_of, name_of, level_of; simpl;
  match goal with
  | |- context [element_tags ?e] =>
      destruct (element_tags e) as [tags|]; simpl; [|exact IH];
      destruct (tags !! "wikidata") as [w|]; simpl; [|exact IH];
      rewrite IH; unfold try_except, try_except_else, parse;
      destruct (tags !! "admin_level") as [s|]; simpl; [|reflexivity];
      destruct (py_int s) as [n|]; reflexivity
  end.

Lemma App_collect_areas (els : list element) :
  App.collect_areas py_int els = ret (omap (area_of py_int) els).
Proof.
  induction els as [|e els IH]; [reflexivity|].
  cbn [App.collect_areas omap list_omap]. collect_cases IH.
Qed.

Lemma PopulationDensity_collect_areas (els : list element) :
  PopulationDensity.collect_areas py_int els = ret (omap (area_of py_int) els).
Proof.
  induction els as [|e els IH]; [reflexivity|].
  cbn [PopulationDensity.collect_areas omap list_omap]. collect_cases IH.
Qed.

Lemma App_locate (lat lon : float) :
  App.get_osm_administrative_areas py_int net lat lon
  = ([GetOverpass lat lon], Val (located py_int net lat lon)).
Proof.
  unfold App.get_osm_administrative_areas, located, try_except,
    try_except_else, http_get, bind.
  destruct (overpass net lat lon) as [msg|[[[|e els]|]]]; try reflexivity.
  cbn [data_elements]. rewrite App_collect_areas. reflexivity.
Qed.

Lemma PopulationDensity_locate (lat lon : float) :
  PopulationDensity.get_osm_administrative_areas py_int net lat lon
  = ([GetOverpass lat lon], Val (located py_int net lat lon)).
Proof.
  unfold PopulationDensity.get_osm_administrative_areas, located, try_except,
    try_except_else, http_get, bind.
  destruct (overpass net lat lon) as [msg|[[[|e els]|]]]; try reflexivity.
  cbn [data_elements]. rewrite PopulationDensity_collect_areas. reflexivity.
Qed.

End Locate.

(** An element is kept when it has tags with a wikidata tag. *)
Lemma area_of_is_Some (py_int : string -> option Z) (e : element) :
  is_Some (area_of py_int e) <-> is_Some (wikidata_of e).
Proof.
  unfold area_of. destruct (wikidata_of e); split; intros [x H]; eauto;
    discriminate.
Qed.

Lemma omap_area_of_length (py_int : string -> option Z) (els : list element) :
  length (omap (area_of py_int) els)
  = length (filter (fun e => is_Some (wikidata_of e)) els).
Proof.
  induction els as [|e els IH]; [reflexivity|].
  rewrite filter_cons. cbn [omap list_omap]. unfold area_of at 1.
  destruct (wikidata_of e); simpl; rewrite IH; reflexivity.
Qed.

(** C7.  In both modules, for every reply: the list returned holds the
    areas of the retained elements; an element whose level tag is missing
    or does not parse gets level 99; the list is descending by level;
    areas of the same level keep the order the reply had them in; and so
    no area of level 99 comes after an area of a smaller level. *)
Theorem locate_sorted_stable (py_int : string -> option Z) (net : upstream)
    (lat lon : float) :
  let els := reply_elements (overpass net lat lon) in
  exists areas : list Area.t,
    App.get_osm_administrative_areas py_int net lat lon
      = ([GetOverpass lat lon], Val areas) /\
    PopulationDensity.get_osm_administrative_areas py_int net lat lon
      = ([GetOverpass lat lon], Val areas) /\
    areas ≡ₚ omap (area_of py_int) els /\
    (forall e a, e ∈ els -> area_of py_int e = Some a ->
       level_of py_int e = None -> a ∈ areas /\ Area.admin_level a = 99) /\
    StronglySorted (descends Area.admin_level) areas /\
    (forall k : Z,
       filter (fun a => Area.admin_level a = k) areas
       = filter (fun a => Area.admin_level a = k) (omap (area_of py_int) els)) /\
    (forall l1 a l2, areas = l1 ++ a :: l2 -> Area.admin_level a < 99 ->
       forall b, b ∈ l2 -> Area.admin_level b <> 99).
Proof.
  intros els. exists (located py_int net lat lon).
  split; [apply App_locate|]. split; [apply PopulationDensity_locate|].
  unfold located. fold els.
  split; [apply sorted_reverse_perm|]. split.
  - intros e a He Ha Hl. split.
    + rewrite sorted_reverse_perm. apply list_elem_of_omap. eauto.
    + unfold area_of in Ha. destruct (wikidata_of e); [|discriminate].
      injection Ha as <-. simpl. now rewrite Hl.
  - split; [apply sorted_reverse_descending|].
    split; [intros k; apply sorted_reverse_stable|].
    intros l1 a l2 E La b Hb Lb.
    pose proof (sorted_reverse_descending Area.admin_level
                  (omap (area_of py_int) els)) as S.
    rewrite E in S. pose proof (descending_split _ _ _ _ _ S Hb). lia.
Qed.

Example locate_levels :
  result (App.get_osm_administrative_areas sample_int levels_net here there)
  = Val [ {| Area.name := Some "b"; Area.wikidata_id := "Q11"; Area.admin_level := 99 |};
          {| Area.name := Some "c"; Area.wikidata_id := "Q12"; Area.admin_level := 99 |};
          {| Area.name := Some "d"; Area.wikidata_id := "Q13"; Area.admin_level := 8 |};
          {| Area.name := Some "a"; Area.wikidata_id := "Q10"; Area.admin_level := 6 |};
          {| Area.name := Some "e"; Area.wikidata_id := "Q14"; Area.admin_level := 6 |} ].
Proof. reflexivity. Qed.

(** C8, as amended.  In both modules, for every reply: the call makes one
    request and returns a list, never an error; the list holds exactly the
    areas of the elements that have tags with a wikidata tag, whether or
    not they have a name (the area's name is then absent); the other
    elements are dropped. *)
Theorem locate_retains_wikidata (py_int : string -> option Z) (net : upstream)
    (lat lon : float) :
  let els := reply_elements (overpass net lat lon) in
  exists areas : list Area.t,
    App.get_osm_administrative_areas py_int net lat lon
      = ([GetOverpass lat lon], Val areas) /\
    PopulationDensity.get_osm_administrative_areas py_int net lat lon
      = ([GetOverpass lat lon], Val areas) /\
    (forall a, a ∈ areas <-> exists e, e ∈ els /\ area_of py_int e = Some a) /\
    (forall e, is_Some (area_of py_int e) <-> is_Some (wikidata_of e)) /\
    (forall e a, area_of py_int e = Some a -> Area.name a = name_of e) /\
    length areas = length (filter (fun e => is_Some (wikidata_of e)) els).
Proof.
  intros els. exists (located py_int net lat lon).
  split; [apply App_locate|]. split; [apply PopulationDensity_locate|].
  unfold located. fold els. split; [|split; [|split]].
  - intros a. rewrite sorted_reverse_perm. apply list_elem_of_omap.
  - intros e. apply area_of_is_Some.
  - intros e a. unfold area_of. destruct (wikidata_of e); [|discriminate].
    intros [= <-]. reflexivity.
  - rewrite sorted_reverse_perm. apply omap_area_of_length.
Qed.

(** C8 fails as worded: the one element of [nameless_net] has no name,
    and its area is returned all the same, with no name. *)
Lemma locate_keeps_nameless :
  ~ (forall areas,
       App.get_osm_administrative_areas sample_int nameless_net here there
         = ([GetOverpass here there], Val areas) ->
       retained_as_specified sample_int
         (reply_elements (overpass nameless_net here there)) areas).
Proof.
  intros H.
  specialize (H [ {| Area.name := None; Area.wikidata_id := "Q1";
                     Area.admin_level := 8 |} ] eq_refl).
  unfold retained_as_specified in H. apply Permutation_length in H.
  vm_compute in H. discriminate H.
Qed.

(** ** The resolution ([get_population_density]) *)

Section Resolve.
Context (py_int : string -> option Z) (py_float : string -> option float).
Context (net : upstream).

Local Abbreviation app_lookup := (App.get_population_and_area_wikidata py_int py_float net).
Local Abbreviation pd_lookup :=
  (PopulationDensity.get_population_and_area_wikidata py_int py_float net).
Local Abbreviation app_answer :=
  (lookup_outcome "Population data is not valid." py_int py_float).
Local Abbreviation pd_answer :=
  (lookup_outcome "Population data is not in a valid format." py_int py_float).

Lemma App_search (name : option string) :
  App.search_alternative_wikidata_ids net name
  = ([GetSearch name], Val (reply_ids (wbsearch net name))).
Proof.
  unfold App.search_alternative_wikidata_ids, try_except, try_except_else,
    http_get, bind.
  destruct (wbsearch net name) as [msg|[[ids|]]]; reflexivity.
Qed.

Lemma PopulationDensity_search (name : option string) :
  PopulationDensity.search_alternative_wikidata_ids net name
  = ([GetSearch name], Val (reply_ids (wbsearch net name))).
Proof.
  unfold PopulationDensity.search_alternative_wikidata_ids, try_except,
    try_except_else, http_get, bind.
  destruct (wbsearch net name) as [msg|[[ids|]]]; reflexivity.
Qed.

(** The two modules' lookups end alike, and differ in one message only. *)
Lemma lookup_outcome_agree (r : reply sparql_data) :
  match app_answer r, pd_answer r with
  | Val (Data d), Val (Data d') => d = d'
  | Val (Error _), Val (Error _) => True
  | Raise e, Raise e' => e = e'
  | _, _ => False
  end.
Proof.
  unfold lookup_outcome. destruct (overflows py_int py_float r); [reflexivity|].
  unfold lookup_answer. destruct r as [msg|data]; [exact I|].
  destruct (reply_rows (Json data)) as [|row rest]; [exact I|].
  destruct (row !! "population" ≫= py_int); [reflexivity|exact I].
Qed.

Lemma App_lookup_result (id : string) (o : outcome (answer Density.t)) :
  result (app_lookup id) = o <-> app_answer (sparql net id) = o.
Proof. rewrite App_lookup. reflexivity. Qed.

(** One round of each loop. *)
Lemma App_try_alternatives_cons (area : Area.t) (wid alt : string)
    (rest : list string) :
  App.try_alternatives py_int py_float net area wid (alt :: rest) =
    if String.eqb alt wid then
      App.try_alternatives py_int py_float net area wid rest
    else
      match app_answer (sparql net alt) with
      | Val (Data d) =>
          ([GetSparql alt], Val (Some (resolved area d (Some alt))))
      | Val (Error _) =>
          let (t, o) := App.try_alternatives py_int py_float net area wid rest in
          (GetSparql alt :: t, o)
      | Raise e => ([GetSparql alt], Raise e)
      end.
Proof.
  cbn [App.try_alternatives]. destruct (String.eqb alt wid); [reflexivity|].
  rewrite App_lookup. unfold bind.
  destruct (app_answer (sparql net alt)) as [[msg|d]|e]; reflexivity.
Qed.

Lemma App_try_areas_cons (area : Area.t) (rest : list Area.t) :
  App.try_areas py_int py_float net (area :: rest) =
    let wid := Area.wikidata_id area in
    match app_answer (sparql net wid) with
    | Val (Data d) => ([GetSparql wid], Val (Some (resolved area d None)))
    | Val (Error _) =>
        let (t1, o1) :=
          App.try_alternatives py_int py_float net area wid
            (reply_ids (wbsearch net (Area.name area))) in
        match o1 with
        | Val (Some r) =>
            (GetSparql wid :: GetSearch (Area.name area) :: t1, Val (Some r))
        | Val None =>
            let (t2, o2) := App.try_areas py_int py_float net rest in
            (GetSparql wid :: GetSearch (Area.name area) :: t1 ++ t2, o2)
        | Raise e =>
            (GetSparql wid :: GetSearch (Area.name area) :: t1, Raise e)
        end
    | Raise e => ([GetSparql wid], Raise e)
    end.
Proof.
  cbn [App.try_areas]. cbv zeta. rewrite App_lookup. unfold bind at 1.
  destruct (app_answer (sparql net (Area.wikidata_id area))) as [[msg|d]|e];
    [|reflexivity|reflexivity].
  rewrite App_search. unfold bind.
  destruct (App.try_alternatives _ _ _ _ _ _) as [t1 [[r|]|e]]; simpl;
    rewrite ?app_nil_r; try reflexivity.
  destruct (App.try_areas _ _ _ rest) as [t2 o2]. reflexivity.
Qed.

(** *** The two copies agree *)

Lemma try_alternatives_agree (area : Area.t) (wid : string) (alts : list string) :
  PopulationDensity.try_alternatives py_int py_float net area wid alts
  = App.try_alternatives py_int py_float net area wid alts.
Proof.
  induction alts as [|alt rest IH]; [reflexivity|].
  cbn [PopulationDensity.try_alternatives App.try_alternatives].
  destruct (String.eqb alt wid); [exact IH|].
  rewrite App_lookup, PopulationDensity_lookup. unfold bind.
  pose proof (lookup_outcome_agree (sparql net alt)) as H.
  destruct (app_answer (sparql net alt)) as [[msg|d]|e],
           (pd_answer (sparql net alt)) as [[msg'|d']|e'];
    try contradiction; [|subst; reflexivity..].
  rewrite IH. reflexivity.
Qed.

Lemma try_areas_agree (areas : list Area.t) :
  PopulationDensity.try_areas py_int py_float net areas
  = App.try_areas py_int py_float net areas.
Proof.
  induction areas as [|area rest IH]; [reflexivity|].
  cbn [PopulationDensity.try_areas App.try_areas]. cbv zeta.
  rewrite App_lookup, PopulationDensity_lookup. unfold bind at 1 4.
  pose proof (lookup_outcome_agree (sparql net (Area.wikidata_id area))) as H.
  destruct (app_answer (sparql net (Area.wikidata_id area))) as [[msg|d]|e],
           (pd_answer (sparql net (Area.wikidata_id area))) as [[msg'|d']|e'];
    try contradiction; [|subst; reflexivity..].
  rewrite App_search, PopulationDensity_search. unfold bind.
  rewrite try_alternatives_agree, IH. reflexivity.
Qed.

Lemma get_population_density_agree (lat lon : float) :
  PopulationDensity.get_population_density py_int py_float net lat lon
  = App.get_population_density py_int py_float net lat lon.
Proof.
  unfold PopulationDensity.get_population_density, App.get_population_density.
  rewrite App_locate, PopulationDensity_locate. unfold bind.
  destruct (located py_int net lat lon); [reflexivity|].
  rewrite try_areas_agree. reflexivity.
Qed.

End Resolve.

Section Loops.
Context (py_int : string -> option Z) (py_float : string -> option float).
Context (net : upstream).

Local Abbreviation app_lookup :=
  (App.get_population_and_area_wikidata py_int py_float net).
Local Abbreviation app_answer :=
  (lookup_outcome "Population data is not valid." py_int py_float).

Lemma lookup_fails_answer (id : string) :
  lookup_fails py_int py_float net id ->
  exists msg, app_answer (sparql net id) = Val (Error msg).
Proof.
  intros [msg H]. exists msg. now apply App_lookup_result.
Qed.


(** The inner loop only ever returns a resolved dict, and raises nothing
    but what the lookup of a candidate raised, as its last request. *)
Lemma try_alternatives_ends (area : Area.t) (wid : string) (alts : list string) :
  exists t o,
    App.try_alternatives py_int py_float net area wid alts = (t, o) /\
    match o with
    | Val None => True
    | Val (Some r) =>
        exists d alt, alt ∈ alts /\ alt <> wid /\ r = resolved area d (Some alt)
    | Raise e =>
        exists alt t', alt ∈ alts /\ alt <> wid /\ t = t' ++ [GetSparql alt] /\
                       app_answer (sparql net alt) = Raise e
    end.
Proof.
  induction alts as [|alt rest (t & o & E & H)].
  - exists [], (Val None). split; [reflexivity|exact I].
  - rewrite App_try_alternatives_cons, E.
    destruct (String.eqb_spec alt wid) as [->|N].
    { exists t, o. split; [reflexivity|].
      destruct o as [[r|]|e]; [|exact I|].
      - destruct H as (d & a & Ha & Na & ->). exists d, a.
        split; [now right|auto].
      - destruct H as (a & t' & Ha & Na & Ht & Ea). exists a, t'.
        split; [now right|auto]. }
    destruct (app_answer (sparql net alt)) as [[msg|d]|e] eqn:A.
    + eexists _, _. split; [reflexivity|].
      destruct o as [[r|]|e]; [|exact I|].
      * destruct H as (d & a & Ha & Na & ->). exists d, a.
        split; [now right|auto].
      * destruct H as (a & t' & Ha & Na & -> & Ea).
        exists a, (GetSparql alt :: t'). split; [now right|auto].
    + eexists _, _. split; [reflexivity|].
      exists d, alt. split; [now left|auto].
    + eexists _, _. split; [reflexivity|].
      exists alt, []. split; [now left|auto].
Qed.

(** When every candidate other than [wid] fails, the inner loop fetches
    each of them once, in order, and runs to its end. *)
Lemma try_alternatives_exhausted (area : Area.t) (wid : string)
    (alts : list string) :
  (forall c, c ∈ alts -> c <> wid -> lookup_fails py_int py_float net c) ->
  App.try_alternatives py_int py_float net area wid alts
  = (map GetSparql (filter (fun c => c <> wid) alts), Val None).
Proof.
  induction alts as [|alt rest IH]; intros H; [reflexivity|].
  rewrite App_try_alternatives_cons, IH, filter_cons
    by (intros c Hc; apply H; now right).
  destruct (String.eqb_spec alt wid) as [->|N].
  - rewrite decide_False by tauto. reflexivity.
  - rewrite decide_True by exact N.
    destruct (lookup_fails_answer alt) as [msg ->]; [|reflexivity].
    apply H; [now left|exact N].
Qed.

(** The outer loop only ever returns a resolved dict, and raises nothing
    but what a lookup raised, as its last request. *)
Lemma try_areas_ends (areas : list Area.t) :
  exists t o,
    App.try_areas py_int py_float net areas = (t, o) /\
    match o with
    | Val None => True
    | Val (Some r) =>
        exists area d alt, area ∈ areas /\ r = resolved area d alt
    | Raise e =>
        exists id t', t = t' ++ [GetSparql id] /\
                      app_answer (sparql net id) = Raise e
    end.
Proof.
  induction areas as [|area rest (t & o & E & H)].
  - exists [], (Val None). split; [reflexivity|exact I].
  - rewrite App_try_areas_cons. cbv zeta.
    destruct (app_answer (sparql net (Area.wikidata_id area)))
      as [[msg|d]|e] eqn:A.
    + destruct (try_alternatives_ends area (Area.wikidata_id area)
                  (reply_ids (wbsearch net (Area.name area))))
        as (t1 & o1 & -> & H1).
      destruct o1 as [[r|]|e].
      * destruct H1 as (d & alt & _ & _ & ->).
        eexists _, _. split; [reflexivity|].
        exists area, d, (Some alt). split; [now left|reflexivity].
      * rewrite E. eexists _, _. split; [reflexivity|].
        destruct o as [[r|]|e]; [|exact I|].
        -- destruct H as (a & d & alt & Ha & ->).
           exists a, d, alt. split; [now right|reflexivity].
        -- destruct H as (id & t' & -> & Ea).
           exists id,
             (GetSparql (Area.wikidata_id area) :: GetSearch (Area.name area)
                :: t1 ++ t').
           split; [|exact Ea]. cbn [app]. now rewrite app_assoc.
      * destruct H1 as (alt & t' & _ & _ & -> & Ea).
        eexists _, _. split; [reflexivity|].
        exists alt,
          (GetSparql (Area.wikidata_id area) :: GetSearch (Area.name area) :: t').
        split; [reflexivity|exact Ea].
    + eexists _, _. split; [reflexivity|].
      exists area, d, None. split; [now left|reflexivity].
    + eexists _, _. split; [reflexivity|].
      exists (Area.wikidata_id area), []. split; [reflexivity|exact A].
Qed.


End Loops.

(** *** Success through an alternative identifier *)

(** C1.  Let the list of areas begin with [A]; let the lookup of [A]'s
    identifier fail, the search for [A]'s name return that identifier and
    [Q9], and the lookup of [Q9] succeed with the record [d].  Then, in
    both modules, the resolution returns [d] under [A]'s name and level
    with [wikidata_id = Q9]; and the requests made are the boundary query,
    one lookup of [A]'s identifier, the search, and one lookup of [Q9]:
    the identifier is not fetched again and no later area is consulted. *)
Theorem alternative_short_circuits (py_int : string -> option Z)
    (py_float : string -> option float) (net : upstream) (lat lon : float)
    (A : Area.t) (rest : list Area.t) (Q9 : string) (d : Density.t) :
  let Q1 := Area.wikidata_id A in
  result (App.get_osm_administrative_areas py_int net lat lon) = Val (A :: rest) ->
  lookup_fails py_int py_float net Q1 ->
  result (App.search_alternative_wikidata_ids net (Area.name A)) = Val [Q1; Q9] ->
  result (App.get_population_and_area_wikidata py_int py_float net Q9)
    = Val (Data d) ->
  let answer :=
    Data {| Resolution.location := Area.name A;
            Resolution.admin_level := Area.admin_level A;
            Resolution.population := Density.population d;
            Resolution.area_km2 := Density.area_km2 d;
            Resolution.population_density := Density.population_density d;
            Resolution.wikidata_id := Some Q9 |} in
  let requests :=
    [GetOverpass lat lon; GetSparql Q1; GetSearch (Area.name A); GetSparql Q9] in
  App.get_population_density py_int py_float net lat lon = (requests, Val answer) /\
  PopulationDensity.get_population_density py_int py_float net lat lon
    = (requests, Val answer).
Proof.
  intros Q1 HA H1 HS H9 answer requests.
  rewrite get_population_density_agree.
  assert (App.get_population_density py_int py_float net lat lon
          = (requests, Val answer)) as E; [|now split].
  unfold App.get_population_density.
  rewrite App_locate in HA |- *. injection HA as ->.
  rewrite App_search in HS. injection HS as HS.
  apply App_lookup_result in H9.
  destruct (lookup_fails_answer _ _ _ _ H1) as [msg E1].
  assert (Q9 <> Q1) as N by (intros ->; congruence).
  unfold bind. rewrite App_try_areas_cons. cbv zeta. fold Q1.
  rewrite E1, HS, !App_try_alternatives_cons, String.eqb_refl.
  destruct (String.eqb_spec Q9 Q1) as [->|_]; [contradiction|].
  rewrite H9. reflexivity.
Qed.

Lemma alternative_short_circuits_witness :
  App.get_population_density sample_int sample_float town_net here there
  = ([GetOverpass here there; GetSparql "Q1"; GetSearch (Some "Town");
      GetSparql "Q9"],
     Val (Data {| Resolution.location := Some "Town";
                  Resolution.admin_level := 8;
                  Resolution.population := 500000;
                  Resolution.area_km2 := VFloat (float_of_int 1000);
                  Resolution.population_density := VFloat (float_of_int 500);
                  Resolution.wikidata_id := Some "Q9" |})).
Proof.
  refine (proj1 (alternative_short_circuits sample_int sample_float town_net
    here there
    {| Area.name := Some "Town"; Area.wikidata_id := "Q1"; Area.admin_level := 8 |}
    [ {| Area.name := Some "Shire"; Area.wikidata_id := "Q2";
         Area.admin_level := 4 |} ]
    "Q9" (with_density 500000 (float_of_int 1000)) _ _ _ _)).
  - reflexivity.
  - eexists. vm_compute. reflexivity.
  - reflexivity.
  - vm_compute. reflexivity.
Defined.

(** *** Falling back to the next area *)

(** C2.  Let the areas be [A] then [B]; let the lookup of [A]'s identifier
    fail, and that of every candidate the search for [A]'s name returns;
    let the lookup of [B]'s identifier succeed with the record [d].  Then,
    in both modules, the resolution returns [d] under [B]'s name and level
    with no [wikidata_id] key; and [B] is fetched only after [A], the
    search and every candidate other than [A]'s own identifier. *)
Theorem falls_back_to_next_area (py_int : string -> option Z)
    (py_float : string -> option float) (net : upstream) (lat lon : float)
    (A B : Area.t) (candidates : list string) (d : Density.t) :
  let Q1 := Area.wikidata_id A in
  let Q2 := Area.wikidata_id B in
  result (App.get_osm_administrative_areas py_int net lat lon) = Val [A; B] ->
  lookup_fails py_int py_float net Q1 ->
  result (App.search_alternative_wikidata_ids net (Area.name A))
    = Val candidates ->
  (forall c, c ∈ candidates -> lookup_fails py_int py_float net c) ->
  result (App.get_population_and_area_wikidata py_int py_float net Q2)
    = Val (Data d) ->
  let answer :=
    Data {| Resolution.location := Area.name B;
            Resolution.admin_level := Area.admin_level B;
            Resolution.population := Density.population d;
            Resolution.area_km2 := Density.area_km2 d;
            Resolution.population_density := Density.population_density d;
            Resolution.wikidata_id := None |} in
  let requests :=
    GetOverpass lat lon :: GetSparql Q1 :: GetSearch (Area.name A) ::
    map GetSparql (filter (fun c => c <> Q1) candidates) ++ [GetSparql Q2] in
  App.get_population_density py_int py_float net lat lon = (requests, Val answer) /\
  PopulationDensity.get_population_density py_int py_float net lat lon
    = (requests, Val answer).
Proof.
  intros Q1 Q2 HA H1 HS HC H2 answer requests.
  rewrite App_search in HS. injection HS as HS.
  rewrite get_population_density_agree.
  assert (App.get_population_density py_int py_float net lat lon
          = (requests, Val answer)) as E; [|now split].
  unfold App.get_population_density.
  rewrite App_locate in HA |- *. injection HA as ->.
  apply App_lookup_result in H2.
  destruct (lookup_fails_answer _ _ _ _ H1) as [msg E1].
  unfold bind. rewrite !App_try_areas_cons. cbv zeta. fold Q1 Q2.
  rewrite E1, HS, try_alternatives_exhausted by (intros c Hc _; now apply HC).
  rewrite H2. unfold ret. cbn [app]. rewrite app_nil_r. reflexivity.
Qed.

Lemma falls_back_to_next_area_witness :
  App.get_population_density sample_int sample_float county_net here there
  = ([GetOverpass here there; GetSparql "Q1"; GetSearch (Some "Town");
      GetSparql "Q7"; GetSparql "Q2"],
     Val (Data {| Resolution.location := Some "Shire";
                  Resolution.admin_level := 4;
                  Resolution.population := 1000000;
                  Resolution.area_km2 := VStr "Unknown";
                  Resolution.population_density :=
                    VStr "Cannot calculate (no area data)";
                  Resolution.wikidata_id := None |})).
Proof.
  refine (proj1 (falls_back_to_next_area sample_int sample_float county_net
    here there
    {| Area.name := Some "Town"; Area.wikidata_id := "Q1"; Area.admin_level := 8 |}
    {| Area.name := Some "Shire"; Area.wikidata_id := "Q2"; Area.admin_level := 4 |}
    ["Q1"; "Q7"] (App.no_area_data 1000000) _ _ _ _ _)).
  - reflexivity.
  - eexists. vm_compute. reflexivity.
  - reflexivity.
  - intros c Hc.
    apply elem_of_cons in Hc as [->|Hc];
      [|apply elem_of_cons in Hc as [->|Hc]; [|inversion Hc]];
      eexists; vm_compute; reflexivity.
  - vm_compute. reflexivity.
Defined.

(** *** The two failures of a resolution *)



Example resolution_overflow :
  App.get_population_density sample_int sample_float crowded_net here there
  = ([GetOverpass here there; GetSparql "Q6"], Raise OverflowError) /\
  PopulationDensity.get_population_density sample_int sample_float crowded_net
    here there
  = ([GetOverpass here there; GetSparql "Q6"], Raise OverflowError).
Proof. split; vm_compute; reflexivity. Qed.

Example resolution_without_areas :
  App.get_population_density sample_int sample_float census_net here there
  = ([GetOverpass here there], Val (Error no_areas_found)).
Proof. reflexivity. Qed.

Example resolution_without_data :
  App.get_population_density sample_int sample_float barren_net here there
  = ([GetOverpass here there; GetSparql "Q1"; GetSearch (Some "Town");
      GetSparql "Q7"; GetSparql "Q8"],
     Val (Error no_valid_data)).
Proof. vm_compute. reflexivity. Qed.

(** *** The two copies *)

(** C9.  For every reader of integers and floats, every upstream and every
    coordinate, [get_population_density] of [population_density.py] and of
    [app.py] make the same requests and return the same dict; so do the
    two boundary queries and the two searches; where one resolution
    raises, the other raises the same exception after the same requests.
    The two lookups make the same request and end alike: both return the
    same record, or both an error (whose wording for an unusable
    population differs and never reaches the resolution's result), or
    both raise the same exception. *)
Theorem copies_agree (py_int : string -> option Z)
    (py_float : string -> option float) (net : upstream) :
  (forall lat lon,
     PopulationDensity.get_population_density py_int py_float net lat lon
     = App.get_population_density py_int py_float net lat lon) /\
  (forall lat lon,
     PopulationDensity.get_osm_administrative_areas py_int net lat lon
     = App.get_osm_administrative_areas py_int net lat lon) /\
  (forall name,
     PopulationDensity.search_alternative_wikidata_ids net name
     = App.search_alternative_wikidata_ids net name) /\
  (forall id,
     exists o o',
       PopulationDensity.get_population_and_area_wikidata py_int py_float net id
         = ([GetSparql id], o) /\
       App.get_population_and_area_wikidata py_int py_float net id
         = ([GetSparql id], o') /\
       match o, o' with
       | Val (Data d), Val (Data d') => d = d'
       | Val (Error _), Val (Error _) => True
       | Raise e, Raise e' => e = e'
       | _, _ => False
       end).
Proof.
  split; [intros; apply get_population_density_agree|].
  split; [intros; now rewrite App_locate, PopulationDensity_locate|].
  split; [intros; now rewrite App_search, PopulationDensity_search|].
  intros id. eexists _, _.
  split; [apply PopulationDensity_lookup|]. split; [apply App_lookup|].
  pose proof (lookup_outcome_agree py_int py_float (sparql net id)) as H.
  destruct (lookup_outcome "Population data is not valid." _ _ _)
    as [[msg|d]|e],
    (lookup_outcome "Population data is not in a valid format." _ _ _)
    as [[msg'|d']|e'];
    try contradiction; [exact I|now symmetry|now symmetry].
Qed.

Example lookup_wording_differs :
  App.get_population_and_area_wikidata sample_int sample_float census_net "Q4"
    = ([GetSparql "Q4"], Val (Error "Population data is not valid.")) /\
  PopulationDensity.get_population_and_area_wikidata sample_int sample_float
    census_net "Q4"
    = ([GetSparql "Q4"], Val (Error "Population data is not in a valid format.")).
Proof. split; reflexivity. Qed.

(** * Further properties of the resolution *)

Section Provenance.
Context (py_int : string -> option Z) (py_float : string -> option float).
Context (net : upstream).

Local Abbreviation app_answer :=
  (lookup_outcome "Population data is not valid." py_int py_float).
Local Abbreviation fails := (lookup_fails py_int py_float net).

Lemma lookup_fails_iff (id : string) :
  fails id <-> exists msg, app_answer (sparql net id) = Val (Error msg).
Proof.
  split; [apply lookup_fails_answer|].
  intros [msg H]. exists msg. now apply App_lookup_result.
Qed.

(** What the inner loop found, and what it went through to find it. *)
Lemma try_alternatives_found (area : Area.t) (wid : string)
    (alts : list string) (t : list request) (r : answer Resolution.t) :
  App.try_alternatives py_int py_float net area wid alts = (t, Val (Some r)) ->
  exists c1 c c2 d,
    alts = c1 ++ c :: c2 /\ c <> wid /\
    app_answer (sparql net c) = Val (Data d) /\
    (forall c', c' ∈ c1 -> c' <> wid -> fails c') /\
    r = resolved area d (Some c) /\
    t = map GetSparql (filter (fun c' => c' <> wid) c1) ++ [GetSparql c].
Proof.
  revert t. induction alts as [|alt rest IH]; intros t H; [discriminate H|].
  rewrite App_try_alternatives_cons in H.
  destruct (String.eqb_spec alt wid) as [->|N].
  - destruct (IH t H) as (c1 & c & c2 & d & -> & Nc & Hd & F & -> & ->).
    exists (wid :: c1), c, c2, d. repeat split; auto.
    + intros c' Hc' Nc'. apply elem_of_cons in Hc' as [->|Hc']; [tauto|auto].
    + rewrite filter_cons, decide_False by tauto. reflexivity.
  - destruct (app_answer (sparql net alt)) as [[msg|d]|e] eqn:E.
    + destruct (App.try_alternatives _ _ _ _ _ rest) as [t' o'].
      injection H as <- ->.
      destruct (IH t' eq_refl) as (c1 & c & c2 & d & -> & Nc & Hd & F & -> & ->).
      exists (alt :: c1), c, c2, d. repeat split; auto.
      * intros c' Hc' Nc'. apply elem_of_cons in Hc' as [->|Hc']; [|auto].
        apply lookup_fails_iff. eauto.
      * rewrite filter_cons, decide_True by exact N. reflexivity.
    + injection H as <- <-. exists [], alt, rest, d. repeat split; auto.
      intros c' Hc'. inversion Hc'.
    + discriminate H.
Qed.

(** When the inner loop runs to its end, every candidate it fetched had
    failed. *)
Lemma try_alternatives_none (area : Area.t) (wid : string)
    (alts : list string) (t : list request) :
  App.try_alternatives py_int py_float net area wid alts = (t, Val None) ->
  forall c, c ∈ alts -> c <> wid -> fails c.
Proof.
  revert t. induction alts as [|alt rest IH]; intros t H c Hc Nc;
    [inversion Hc|].
  rewrite App_try_alternatives_cons in H.
  destruct (String.eqb_spec alt wid) as [->|N].
  - apply elem_of_cons in Hc as [->|Hc]; [tauto|eauto].
  - destruct (app_answer (sparql net alt)) as [[msg|d]|e] eqn:E;
      [|discriminate H..].
    destruct (App.try_alternatives _ _ _ _ _ rest) as [t' o'].
    injection H as <- ->.
    apply elem_of_cons in Hc as [->|Hc]; [|eauto].
    apply lookup_fails_iff. eauto.
Qed.

(** The inner loop fetches nothing but candidates other than [wid], each
    at most as often as the search returned it. *)
Lemma try_alternatives_trace (area : Area.t) (wid : string) (alts : list string) :
  exists fetched,
    trace (App.try_alternatives py_int py_float net area wid alts)
      = map GetSparql fetched /\
    fetched `prefix_of` filter (fun c => c <> wid) alts.
Proof.
  induction alts as [|alt rest (fetched & E & P)].
  - exists []. split; [reflexivity|apply prefix_nil].
  - rewrite App_try_alternatives_cons, filter_cons.
    destruct (String.eqb_spec alt wid) as [->|N].
    + rewrite decide_False by tauto. eauto.
    + rewrite decide_True by exact N.
      destruct (app_answer (sparql net alt)) as [[msg|d]|e].
      * destruct (App.try_alternatives _ _ _ _ _ rest) as [t' o'].
        unfold trace in *. simpl in *. subst t'.
        exists (alt :: fetched). split; [reflexivity|now apply prefix_cons].
      * exists [alt]. split; [reflexivity|].
        apply prefix_cons, prefix_nil.
      * exists [alt]. split; [reflexivity|].
        apply prefix_cons, prefix_nil.
Qed.

(** What the outer loop found: the area that answered, the areas before
    it, all exhausted, and where the record came from. *)
Lemma try_areas_found (areas : list Area.t) (t : list request)
    (r : answer Resolution.t) :
  App.try_areas py_int py_float net areas = (t, Val (Some r)) ->
  exists l1 area l2 d alt,
    areas = l1 ++ area :: l2 /\
    Forall (exhausted py_int py_float net) l1 /\
    r = resolved area d alt /\
    match alt with
    | None => app_answer (sparql net (Area.wikidata_id area)) = Val (Data d)
    | Some c =>
        fails (Area.wikidata_id area) /\
        c <> Area.wikidata_id area /\
        app_answer (sparql net c) = Val (Data d) /\
        exists c1 c2,
          reply_ids (wbsearch net (Area.name area)) = c1 ++ c :: c2 /\
          forall c', c' ∈ c1 -> c' <> Area.wikidata_id area -> fails c'
    end.
Proof.
  revert t. induction areas as [|area rest IH]; intros t H; [discriminate H|].
  rewrite App_try_areas_cons in H. cbv zeta in H.
  destruct (app_answer (sparql net (Area.wikidata_id area)))
    as [[msg|d]|e] eqn:E; [| |discriminate H].
  - destruct (App.try_alternatives _ _ _ area _ _) as [t1 o1] eqn:E1.
    destruct o1 as [[r1|]|e].
    + injection H as <- <-.
      destruct (try_alternatives_found _ _ _ _ _ E1)
        as (c1 & c & c2 & d & Hc & Nc & Hd & F & -> & _).
      exists [], area, rest, d, (Some c). repeat split; auto.
      * apply lookup_fails_iff. eauto.
      * eauto.
    + destruct (App.try_areas _ _ _ rest) as [t2 o2].
      injection H as <- ->.
      destruct (IH t2 eq_refl) as (l1 & a & l2 & d & alt & -> & X & -> & P).
      exists (area :: l1), a, l2, d, alt. repeat split; auto.
      constructor; [|exact X]. split; [apply lookup_fails_iff; eauto|].
      exact (try_alternatives_none _ _ _ _ E1).
    + discriminate H.
  - injection H as <- <-. exists [], area, rest, d, None. repeat split; auto.
Qed.

End Provenance.

(** X1.  When the lookup of the first area's own identifier succeeds, both
    modules return its record under that area's name and level, without a
    [wikidata_id] key, after two requests: the boundary query and that one
    lookup.  No search is made and no other area is consulted. *)
Theorem first_area_answers (py_int : string -> option Z)
    (py_float : string -> option float) (net : upstream) (lat lon : float)
    (A : Area.t) (rest : list Area.t) (d : Density.t) :
  result (App.get_osm_administrative_areas py_int net lat lon) = Val (A :: rest) ->
  result (App.get_population_and_area_wikidata py_int py_float net
            (Area.wikidata_id A)) = Val (Data d) ->
  let answer :=
    Data {| Resolution.location := Area.name A;
            Resolution.admin_level := Area.admin_level A;
            Resolution.population := Density.population d;
            Resolution.area_km2 := Density.area_km2 d;
            Resolution.population_density := Density.population_density d;
            Resolution.wikidata_id := None |} in
  let requests := [GetOverpass lat lon; GetSparql (Area.wikidata_id A)] in
  App.get_population_density py_int py_float net lat lon = (requests, Val answer) /\
  PopulationDensity.get_population_density py_int py_float net lat lon
    = (requests, Val answer).
Proof.
  intros HA H1 answer requests. rewrite get_population_density_agree.
  assert (App.get_population_density py_int py_float net lat lon
          = (requests, Val answer)) as E; [|now split].
  unfold App.get_population_density.
  rewrite App_locate in HA |- *. injection HA as ->.
  apply App_lookup_result in H1.
  unfold bind. rewrite App_try_areas_cons. cbv zeta. rewrite H1. reflexivity.
Qed.

Lemma first_area_answers_witness :
  App.get_population_density sample_int sample_float direct_net here there
  = ([GetOverpass here there; GetSparql "Q9"],
     Val (Data {| Resolution.location := Some "Town";
                  Resolution.admin_level := 8;
                  Resolution.population := 500000;
                  Resolution.area_km2 := VFloat (float_of_int 1000);
                  Resolution.population_density := VFloat (float_of_int 500);
                  Resolution.wikidata_id := None |})).
Proof.
  refine (proj1 (first_area_answers sample_int sample_float direct_net
    here there
    {| Area.name := Some "Town"; Area.wikidata_id := "Q9"; Area.admin_level := 8 |}
    [ {| Area.name := Some "Shire"; Area.wikidata_id := "Q2";
         Area.admin_level := 4 |} ]
    (with_density 500000 (float_of_int 1000)) _ _)).
  - reflexivity.
  - vm_compute. reflexivity.
Defined.

(** The resolution's answer in terms of the outer loop. *)
Lemma resolution_found (py_int : string -> option Z)
    (py_float : string -> option float) (net : upstream) (lat lon : float)
    (r : Resolution.t) :
  result (App.get_population_density py_int py_float net lat lon) = Val (Data r) ->
  exists t,
    App.try_areas py_int py_float net (located py_int net lat lon)
    = (t, Val (Some (Data r))).
Proof.
  unfold App.get_population_density. rewrite App_locate. unfold bind, result.
  destruct (located py_int net lat lon) as [|a l]; [discriminate|].
  destruct (try_areas_ends py_int py_float net (a :: l)) as (t & o & E & H).
  rewrite E. cbn [snd]. destruct o as [[r'|]|e]; try discriminate.
  destruct H as (a' & d & alt & _ & ->). intros [= <-]. eauto.
Qed.

(** X2.  Every successful resolution has a provenance.  The dict returned
    carries the name and level of one of the areas the boundary query
    gave, and the record of a lookup that succeeded: of that area's own
    identifier when the dict has no [wikidata_id] key, and otherwise of
    the identifier under that key, which is a candidate of the search for
    the area's name, differs from the area's own identifier, and was tried
    only after the lookup of the area's own identifier had failed. *)
Theorem resolution_provenance (py_int : string -> option Z)
    (py_float : string -> option float) (net : upstream) (lat lon : float)
    (r : Resolution.t) :
  result (App.get_population_density py_int py_float net lat lon) = Val (Data r) ->
  exists area d,
    area ∈ located py_int net lat lon /\
    result (App.get_osm_administrative_areas py_int net lat lon)
      = Val (located py_int net lat lon) /\
    Resolution.location r = Area.name area /\
    Resolution.admin_level r = Area.admin_level area /\
    Resolution.population r = Density.population d /\
    Resolution.area_km2 r = Density.area_km2 d /\
    Resolution.population_density r = Density.population_density d /\
    match Resolution.wikidata_id r with
    | None =>
        result (App.get_population_and_area_wikidata py_int py_float net
                  (Area.wikidata_id area)) = Val (Data d)
    | Some c =>
        lookup_fails py_int py_float net (Area.wikidata_id area) /\
        c <> Area.wikidata_id area /\
        c ∈ reply_ids (wbsearch net (Area.name area)) /\
        result (App.get_population_and_area_wikidata py_int py_float net c)
          = Val (Data d)
    end.
Proof.
  intros H. destruct (resolution_found _ _ _ _ _ _ H) as [t E].
  destruct (try_areas_found _ _ _ _ _ _ E)
    as (l1 & area & l2 & d & alt & L & _ & R & P).
  exists area, d. injection R as ->. simpl.
  split; [rewrite L; apply elem_of_app; right; now left|].
  split; [now rewrite App_locate|].
  repeat (split; [reflexivity|]).
  destruct alt as [c|].
  - destruct P as (F & N & D & c1 & c2 & C & _).
    repeat split; auto.
    + rewrite C. apply elem_of_app. right. now left.
    + now apply App_lookup_result.
  - now apply App_lookup_result.
Qed.

Lemma resolution_provenance_witness :
  exists area d,
    area ∈ located sample_int town_net here there /\
    Area.wikidata_id area = "Q1" /\ Density.population d = 500000.
Proof.
  destruct (resolution_provenance sample_int sample_float town_net here there
    {| Resolution.location := Some "Town";
       Resolution.admin_level := 8;
       Resolution.population := 500000;
       Resolution.area_km2 := VFloat (float_of_int 1000);
       Resolution.population_density := VFloat (float_of_int 500);
       Resolution.wikidata_id := Some "Q9" |})
    as (area & d & Ha & _ & Hn & Hl & Hp & _).
  - vm_compute. reflexivity.
  - exists area, d. split; [exact Ha|]. split; [|now rewrite <- Hp].
    vm_compute in Ha.
    apply elem_of_cons in Ha as [->|Ha]; [reflexivity|].
    apply elem_of_cons in Ha as [->|Ha]; [discriminate Hl|inversion Ha].
Defined.

(** X3.  The answer comes from the most local area that has data: when a
    resolution succeeds, every area of the boundary query listed before
    the one that answered is exhausted, and so is every area of a larger
    level than the level in the answer. *)
Theorem resolution_prefers_most_local (py_int : string -> option Z)
    (py_float : string -> option float) (net : upstream) (lat lon : float)
    (r : Resolution.t) :
  result (App.get_population_density py_int py_float net lat lon) = Val (Data r) ->
  exists l1 area l2,
    located py_int net lat lon = l1 ++ area :: l2 /\
    Resolution.location r = Area.name area /\
    Resolution.admin_level r = Area.admin_level area /\
    Forall (exhausted py_int py_float net) l1 /\
    forall a, a ∈ located py_int net lat lon ->
      Resolution.admin_level r < Area.admin_level a ->
      exhausted py_int py_float net a.
Proof.
  intros H. destruct (resolution_found _ _ _ _ _ _ H) as [t E].
  destruct (try_areas_found _ _ _ _ _ _ E)
    as (l1 & area & l2 & d & alt & L & X & R & _).
  exists l1, area, l2. injection R as ->. simpl.
  split; [exact L|]. split; [reflexivity|]. split; [reflexivity|].
  split; [exact X|].
  intros a Ha La. rewrite Forall_forall in X. apply X.
  pose proof (sorted_reverse_descending Area.admin_level
    (omap (area_of py_int) (reply_elements (overpass net lat lon)))) as S.
  fold (located py_int net lat lon) in S. rewrite L in S, Ha.
  apply elem_of_app in Ha as [Ha|Ha]; [exact Ha|exfalso].
  apply elem_of_cons in Ha as [->|Ha]; [lia|].
  pose proof (descending_split _ _ _ _ _ S Ha). lia.
Qed.

Lemma resolution_prefers_most_local_witness :
  exhausted sample_int sample_float county_net
    {| Area.name := Some "Town"; Area.wikidata_id := "Q1"; Area.admin_level := 8 |}.
Proof.
  destruct (resolution_prefers_most_local sample_int sample_float county_net
    here there
    {| Resolution.location := Some "Shire";
       Resolution.admin_level := 4;
       Resolution.population := 1000000;
       Resolution.area_km2 := VStr "Unknown";
       Resolution.population_density := VStr "Cannot calculate (no area data)";
       Resolution.wikidata_id := None |})
    as (l1 & area & l2 & _ & _ & _ & _ & H).
  - vm_compute. reflexivity.
  - apply H.
    + change (located sample_int county_net here there)
        with [ {| Area.name := Some "Town"; Area.wikidata_id := "Q1";
                  Area.admin_level := 8 |};
               {| Area.name := Some "Shire"; Area.wikidata_id := "Q2";
                  Area.admin_level := 4 |} ].
      now left.
    + simpl. lia.
Defined.

Section Budget.
Context (py_int : string -> option Z) (py_float : string -> option float).
Context (net : upstream).

Lemma try_alternatives_budget (area : Area.t) (alts : list string) :
  exists t o,
    App.try_alternatives py_int py_float net area (Area.wikidata_id area) alts
      = (t, o) /\
    (length t <= length (filter (fun c => c <> Area.wikidata_id area) alts))%nat /\
    Forall (fun rq => is_overpass rq = false) t.
Proof.
  destruct (try_alternatives_trace py_int py_float net area
              (Area.wikidata_id area) alts) as (fetched & E & P).
  destruct (App.try_alternatives _ _ _ _ _ _) as [t o].
  exists t, o. unfold trace in E. simpl in E. subst t.
  split; [reflexivity|]. split.
  - rewrite length_map. now apply prefix_length.
  - apply Forall_forall. intros rq Hrq.
    apply list_elem_of_fmap in Hrq as (c & -> & _). reflexivity.
Qed.

Lemma try_areas_budget (areas : list Area.t) :
  exists t o,
    App.try_areas py_int py_float net areas = (t, o) /\
    (length t
     <= sum_list (map (fun a => 2 + length (fetched_candidates net a)) areas))%nat /\
    Forall (fun rq => is_overpass rq = false) t.
Proof.
  induction areas as [|area rest (t2 & o2 & E2 & L2 & F2)].
  - exists [], (Val None). repeat split; [simpl; lia|constructor].
  - rewrite App_try_areas_cons. cbv zeta.
    destruct (lookup_outcome _ _ _ (sparql net (Area.wikidata_id area)))
      as [[msg|d]|e].
    + destruct (try_alternatives_budget area
                  (reply_ids (wbsearch net (Area.name area))))
        as (t1 & o1 & E1 & L1 & F1).
      rewrite E1, E2. unfold fetched_candidates in *. cbn [map sum_list].
      destruct o1 as [[r|]|e]; eexists _, _; (split; [reflexivity|]);
        (split;
         [cbn [length]; rewrite ?length_app; apply le_n_S, le_n_S;
          first [ apply Nat.add_le_mono; [exact L1|exact L2]
                | etransitivity; [exact L1|apply Nat.le_add_r] ]|]);
        repeat (constructor; [reflexivity|]); rewrite ?Forall_app; auto.
    + eexists _, _. split; [reflexivity|].
      split; [cbn [map sum_list length]; unfold id; lia|].
      repeat constructor.
    + eexists _, _. split; [reflexivity|].
      split; [cbn [map sum_list length]; unfold id; lia|].
      repeat constructor.
Qed.

End Budget.

(** X4.  A resolution makes exactly one boundary query, as its first
    request, and at most [request_budget] requests in all: per area one
    lookup, one search, and one lookup for each candidate other than the
    area's own identifier. *)
Theorem resolution_request_budget (py_int : string -> option Z)
    (py_float : string -> option float) (net : upstream) (lat lon : float) :
  exists t,
    trace (App.get_population_density py_int py_float net lat lon)
      = GetOverpass lat lon :: t /\
    trace (PopulationDensity.get_population_density py_int py_float net lat lon)
      = GetOverpass lat lon :: t /\
    Forall (fun rq => is_overpass rq = false) t /\
    (length (GetOverpass lat lon :: t)
     <= request_budget net (located py_int net lat lon))%nat.
Proof.
  rewrite get_population_density_agree.
  unfold App.get_population_density. rewrite App_locate. unfold bind, trace.
  destruct (located py_int net lat lon) as [|a l] eqn:L.
  - exists []. repeat split; [constructor|]. unfold request_budget. simpl. lia.
  - destruct (try_areas_budget py_int py_float net (a :: l))
      as (t & o & E & B & F).
    rewrite E. unfold request_budget.
    destruct o as [[r|]|e]; simpl; rewrite ?app_nil_r; exists t;
      repeat split; auto; cbn [length] in *; simpl in B; lia.
Qed.

(** X5.  The inner loop over the candidates of a search fetches, in the
    search's order, the candidates other than the area's own identifier,
    and nothing else: its requests are lookups of a prefix of that list
    (the whole list when no candidate has data). *)
Theorem alternatives_skip_own_identifier (py_int : string -> option Z)
    (py_float : string -> option float) (net : upstream) (area : Area.t)
    (wid : string) (alts : list string) :
  exists fetched,
    trace (App.try_alternatives py_int py_float net area wid alts)
      = map GetSparql fetched /\
    trace (PopulationDensity.try_alternatives py_int py_float net area wid alts)
      = map GetSparql fetched /\
    (fetched `prefix_of` filter (fun c => c <> wid) alts) /\
    (wid ∉ fetched) /\
    (result (App.try_alternatives py_int py_float net area wid alts) = Val None ->
     fetched = filter (fun c => c <> wid) alts).
Proof.
  rewrite try_alternatives_agree.
  destruct (try_alternatives_trace py_int py_float net area wid alts)
    as (fetched & E & P).
  exists fetched. split; [exact E|]. split; [exact E|]. split; [exact P|].
  split.
  - intros H. destruct P as [k P].
    assert (wid ∈ filter (fun c => c <> wid) alts) as H'
      by (rewrite P; apply elem_of_app; now left).
    apply list_elem_of_filter in H' as [N _]. now apply N.
  - intros N.
    destruct (App.try_alternatives _ _ _ _ _ _) as [t o] eqn:T.
    unfold result, trace in *. simpl in *. subst o.
    rewrite try_alternatives_exhausted in T
      by (exact (try_alternatives_none _ _ _ _ _ _ _ T)).
    injection T as T. rewrite <- T in E.
    revert E. generalize (filter (fun c => c <> wid) alts).
    clear. intros l. revert fetched.
    induction l as [|x l IH]; intros [|y f] E; try discriminate; [reflexivity|].
    injection E as -> E. f_equal. now apply IH.
Qed.

(** X6.  A search whose request fails gives no candidates and no error:
    when the lookup of the first area's identifier fails and the search
    for its name cannot be reached, the resolution goes straight on to
    the next area. *)
Theorem failed_search_moves_on (py_int : string -> option Z)
    (py_float : string -> option float) (net : upstream) (lat lon : float)
    (A B : Area.t) (msg : string) (d : Density.t) :
  result (App.get_osm_administrative_areas py_int net lat lon) = Val [A; B] ->
  lookup_fails py_int py_float net (Area.wikidata_id A) ->
  wbsearch net (Area.name A) = Failed msg ->
  result (App.get_population_and_area_wikidata py_int py_float net
            (Area.wikidata_id B)) = Val (Data d) ->
  let requests :=
    [GetOverpass lat lon; GetSparql (Area.wikidata_id A);
     GetSearch (Area.name A); GetSparql (Area.wikidata_id B)] in
  App.search_alternative_wikidata_ids net (Area.name A)
    = ([GetSearch (Area.name A)], Val []) /\
  PopulationDensity.search_alternative_wikidata_ids net (Area.name A)
    = ([GetSearch (Area.name A)], Val []) /\
  App.get_population_density py_int py_float net lat lon
    = (requests, Val (resolved B d None)) /\
  PopulationDensity.get_population_density py_int py_float net lat lon
    = (requests, Val (resolved B d None)).
Proof.
  intros HA H1 HS H2 requests.
  rewrite get_population_density_agree, App_search, PopulationDensity_search, HS.
  split; [reflexivity|]. split; [reflexivity|].
  assert (App.get_population_density py_int py_float net lat lon
          = (requests, Val (resolved B d None))) as E; [|now split].
  unfold App.get_population_density.
  rewrite App_locate in HA |- *. injection HA as ->.
  apply App_lookup_result in H2.
  destruct (lookup_fails_answer _ _ _ _ H1) as [m E1].
  unfold bind. rewrite !App_try_areas_cons. cbv zeta.
  rewrite E1, HS, H2. reflexivity.
Qed.

Lemma failed_search_moves_on_witness :
  App.get_population_density sample_int sample_float
    {| overpass := overpass town_net; sparql := sparql county_net;
       wbsearch := fun _ => Failed "timed out" |} here there
  = ([GetOverpass here there; GetSparql "Q1"; GetSearch (Some "Town");
      GetSparql "Q2"],
     Val (resolved
            {| Area.name := Some "Shire"; Area.wikidata_id := "Q2";
               Area.admin_level := 4 |}
            (App.no_area_data 1000000) None)).
Proof.
  refine (proj1 (proj2 (proj2 (failed_search_moves_on sample_int sample_float
    {| overpass := overpass town_net; sparql := sparql county_net;
       wbsearch := fun _ => Failed "timed out" |}
    here there
    {| Area.name := Some "Town"; Area.wikidata_id := "Q1"; Area.admin_level := 8 |}
    {| Area.name := Some "Shire"; Area.wikidata_id := "Q2"; Area.admin_level := 4 |}
    "timed out" (App.no_area_data 1000000) _ _ _ _)))).
  - reflexivity.
  - eexists. vm_compute. reflexivity.
  - reflexivity.
  - vm_compute. reflexivity.
Defined.

(** X7.  A boundary request that fails, a reply with no elements, and a
    reply none of whose elements has a wikidata tag all look the same to
    the caller: the boundary query returns the empty list, and the
    resolution returns the no-areas error after that one request. *)
Theorem no_usable_boundary (py_int : string -> option Z)
    (py_float : string -> option float) (net : upstream) (lat lon : float) :
  (forall e, e ∈ reply_elements (overpass net lat lon) -> wikidata_of e = None) ->
  App.get_osm_administrative_areas py_int net lat lon
    = ([GetOverpass lat lon], Val []) /\
  PopulationDensity.get_osm_administrative_areas py_int net lat lon
    = ([GetOverpass lat lon], Val []) /\
  App.get_population_density py_int py_float net lat lon
    = ([GetOverpass lat lon], Val (Error no_areas_found)) /\
  PopulationDensity.get_population_density py_int py_float net lat lon
    = ([GetOverpass lat lon], Val (Error no_areas_found)).
Proof.
  intros H. rewrite get_population_density_agree.
  unfold App.get_population_density.
  rewrite App_locate, PopulationDensity_locate.
  assert (located py_int net lat lon = []) as ->; [|now repeat split].
  unfold located.
  assert (omap (area_of py_int) (reply_elements (overpass net lat lon)) = [])
    as ->; [|reflexivity].
  induction (reply_elements (overpass net lat lon)) as [|e els IH];
    [reflexivity|].
  cbn [omap list_omap]. unfold area_of at 1.
  rewrite (H e) by now left. apply IH. intros e' He'. apply H. now right.
Qed.

Lemma no_usable_boundary_witness :
  App.get_population_density sample_int sample_float offline_net here there
  = ([GetOverpass here there], Val (Error no_areas_found)).
Proof.
  refine (proj1 (proj2 (proj2 (no_usable_boundary sample_int sample_float
    offline_net here there _)))).
  intros e He. inversion He.
Defined.

(** * Properties of the routes *)

(** ** Signing up *)

Section Accounts.
Context (encrypt : string -> string).

Lemma blank_false (s : option string) :
  blank s = false <-> exists u, s = Some u /\ u <> EmptyString.
Proof.
  destruct s as [[|a u]|]; simpl; split; try discriminate.
  - intros (u & [= <-] & H). congruence.
  - eauto.
  - intros (u' & [= <-] & H). reflexivity.
  - intros (u & H & _). discriminate.
Qed.

(** What a signup of [src/appwsolanapubkey.py] answers and leaves. *)
Lemma signup_cases (st : AppWSolanaPubkey.state)
    (username password : option string) (w : Wallet.t)
    (disk : write (gmap string User.t)) :
  (flow_status (AppWSolanaPubkey.signup encrypt st username password w disk).1
   = Some 400 /\
   (AppWSolanaPubkey.signup encrypt st username password w disk).2 = st) \/
  (exists u p,
     username = Some u /\ password = Some p /\
     u <> EmptyString /\ p <> EmptyString /\
     AppWSolanaPubkey.users st !! u = None /\
     AppWSolanaPubkey.signup encrypt st username password w disk
     = let us :=
         <[u := account p w (encrypt (Wallet.secret_key w))]>
           (AppWSolanaPubkey.users st) in
       match disk with
       | Written =>
           (Return (jsonify
              [("success", JBool true);
               ("message", JStr "Signup successful.");
               ("solana_public_key", JStr (Wallet.public_key w))] 201),
            {| AppWSolanaPubkey.users := us;
               AppWSolanaPubkey.users_file := Holds us |})
       | WriteError on_disk =>
           (Throw,
            {| AppWSolanaPubkey.users := us;
               AppWSolanaPubkey.users_file := on_disk |})
       end).
Proof.
  unfold AppWSolanaPubkey.signup.
  destruct username as [u|], password as [p|]; try (left; split; reflexivity).
  destruct (blank (Some u) || blank (Some p)) eqn:B; [left; split; reflexivity|].
  apply orb_false_elim in B as [Bu Bp].
  apply blank_false in Bu as (u' & [= <-] & Hu).
  apply blank_false in Bp as (p' & [= <-] & Hp).
  case_bool_decide as R; [left; split; reflexivity|].
  right. exists u, p. repeat (split; [done|]).
  split; [|destruct disk; reflexivity].
  destruct (AppWSolanaPubkey.users st !! u); [exfalso; apply R; eauto|done].
Qed.

Lemma app_signup_cases (st : AppRoutes.state)
    (username password : option string) (w : Wallet.t)
    (disk : write (gmap string User.t)) :
  (status (AppRoutes.signup encrypt st username password w disk).1 = 400 /\
   (AppRoutes.signup encrypt st username password w disk).2 = st) \/
  (exists u p,
     username = Some u /\ password = Some p /\
     u <> EmptyString /\ p <> EmptyString /\
     AppRoutes.users st !! u = None /\
     AppRoutes.signup encrypt st username password w disk
     = let us :=
         <[u := app_account p w (encrypt (Wallet.secret_key w))]>
           (AppRoutes.users st) in
       match disk with
       | Written =>
           (jsonify [("success", JBool true);
                     ("message", JStr "Signup successful.");
                     ("solana_public_key", JStr (Wallet.public_key w));
                     ("solana_private_key", JStr (Wallet.secret_key w))] 201,
            {| AppRoutes.users := us; AppRoutes.users_file := Holds us |})
       | WriteError on_disk =>
           (AppRoutes.internal_error,
            {| AppRoutes.users := us; AppRoutes.users_file := on_disk |})
       end).
Proof.
  unfold AppRoutes.signup.
  destruct username as [u|], password as [p|]; try (left; split; reflexivity).
  destruct (blank (Some u) || blank (Some p)) eqn:B; [left; split; reflexivity|].
  apply orb_false_elim in B as [Bu Bp].
  apply blank_false in Bu as (u' & [= <-] & Hu).
  apply blank_false in Bp as (p' & [= <-] & Hp).
  case_bool_decide as R; [left; split; reflexivity|].
  right. exists u, p. repeat (split; [done|]).
  split; [|destruct disk; reflexivity].
  destruct (AppRoutes.users st !! u); [exfalso; apply R; eauto|done].
Qed.

End Accounts.

(** X8.  In [src/appwsolanapubkey.py] a signup that is answered 201 makes
    the login of that name succeed with the password given, and with no
    other; before the signup no password logged that name in; and the
    signup changes the answer to no login under another name. *)
Theorem signup_then_login (encrypt : string -> string)
    (st : AppWSolanaPubkey.state) (u p : string) (w : Wallet.t)
    (disk : write (gmap string User.t)) :
  flow_status (AppWSolanaPubkey.signup encrypt st (Some u) (Some p) w disk).1
  = Some 201 ->
  (forall p',
     status (AppWSolanaPubkey.login st (Some u) (Some p')) <> 200 /\
     (status (AppWSolanaPubkey.login
                (AppWSolanaPubkey.signup encrypt st (Some u) (Some p) w disk).2
                (Some u) (Some p')) = 200 <-> p' = p)) /\
  (forall v q, v <> Some u ->
     AppWSolanaPubkey.login
       (AppWSolanaPubkey.signup encrypt st (Some u) (Some p) w disk).2 v q
     = AppWSolanaPubkey.login st v q).
Proof.
  intros H.
  destruct (signup_cases encrypt st (Some u) (Some p) w disk)
    as [[H4 _]|(u' & p'' & [= <-] & [= <-] & Hu & Hp & N & E)];
    [rewrite H4 in H; discriminate|].
  rewrite E. rewrite E in H. clear E.
  destruct disk as [|on_disk]; [|discriminate H].
  cbn [snd]. clear H. split.
  - intros p'. unfold AppWSolanaPubkey.login. split.
    + destruct (blank (Some u) || blank (Some p')); [discriminate|].
      rewrite N. discriminate.
    + cbn [AppWSolanaPubkey.users]. rewrite lookup_insert_eq.
      cbn [User.password account].
      destruct (blank (Some u) || blank (Some p')) eqn:B.
      * split; [discriminate|]. intros ->.
        apply orb_true_iff in B as [B|B].
        -- destruct u; [congruence|discriminate].
        -- destruct p; [congruence|discriminate].
      * destruct (String.eqb_spec p p') as [->|Np]; split; try done.
  - intros v q Hv. unfold AppWSolanaPubkey.login.
    destruct v as [v|], q as [q|]; try reflexivity.
    cbn [AppWSolanaPubkey.users]. rewrite lookup_insert_ne by congruence.
    reflexivity.
Qed.

Lemma signup_then_login_witness :
  status (AppWSolanaPubkey.login
            (AppWSolanaPubkey.signup sample_encrypt nobody (Some "ada")
               (Some "pw") sample_wallet Written).2 (Some "ada") (Some "pw"))
  = 200.
Proof.
  apply (signup_then_login sample_encrypt nobody "ada" "pw" sample_wallet
           Written); reflexivity.
Defined.


Example signup_write_fails :
  AppRoutes.signup sample_encrypt app_nobody (Some "ada") (Some "pw")
    sample_wallet (WriteError NotJson)
  = (AppRoutes.internal_error,
     {| AppRoutes.users :=
          {["ada" := app_account "pw" sample_wallet "enc:5JdQ"]};
        AppRoutes.users_file := NotJson |}).
Proof. reflexivity. Qed.

(** X10.  The login of [src/app.py] never succeeds.  It compares the
    user's record with the password, [users.get(username) == password],
    and a dict is not equal to a string: every login is answered 400 or
    401, and so is the login with the very name and password that a signup
    was just answered 201 for. *)
Theorem app_login_never_succeeds (encrypt : string -> string)
    (st : AppRoutes.state) (username password : option string)
    (w : Wallet.t) (disk : write (gmap string User.t)) :
  (exists r, AppRoutes.login st username password = Return r /\
             (status r = 400 \/ status r = 401)) /\
  (forall u p,
     status (AppRoutes.signup encrypt st (Some u) (Some p) w disk).1 = 201 ->
     AppRoutes.login (AppRoutes.signup encrypt st (Some u) (Some p) w disk).2
       (Some u) (Some p)
     = Return (jsonify [("success", JBool false);
                        ("message", JStr "Invalid username or password.")]
                 401)).
Proof.
  assert (forall st u p,
            AppRoutes.py_eq (AppRoutes.users_get st u) (AppRoutes.PStr p)
            = false) as Ne.
  { intros st0 u p. unfold AppRoutes.users_get.
    destruct (AppRoutes.users st0 !! u); reflexivity. }
  split.
  - unfold AppRoutes.login.
    destruct username as [u|], password as [p|];
      try (eexists; split; [reflexivity|now left]).
    destruct (blank (Some u) || blank (Some p));
      [eexists; split; [reflexivity|now left]|].
    rewrite Ne. eexists; split; [reflexivity|now right].
  - intros u p H.
    destruct (app_signup_cases encrypt st (Some u) (Some p) w disk)
      as [[H4 _]|(u' & p' & [= <-] & [= <-] & Hu & Hp & _ & _)];
      [rewrite H4 in H; discriminate|].
    unfold AppRoutes.login. rewrite Ne.
    destruct u; [done|]. destruct p; [done|]. reflexivity.
Qed.

(** X11.  While the cipher decrypts what it encrypted, [get_wallet]
    gives back the wallet of the signup: after a signup answered 201, in
    either file, the answer for that name is 200 with the public key and
    the secret key of the wallet created, in the clear. *)
Theorem wallet_round_trip (encrypt : string -> string)
    (decrypt : string -> option string)
    (st : AppWSolanaPubkey.state) (st' : AppRoutes.state)
    (u p : string) (w : Wallet.t) (disk : write (gmap string User.t)) :
  (forall s, decrypt (encrypt s) = Some s) ->
  (flow_status (AppWSolanaPubkey.signup encrypt st (Some u) (Some p) w disk).1
   = Some 201 ->
   AppWSolanaPubkey.get_wallet decrypt
     (AppWSolanaPubkey.signup encrypt st (Some u) (Some p) w disk).2 (Some u)
   = Return (jsonify [("solana_public_key", JStr (Wallet.public_key w));
                      ("solana_private_key", JStr (Wallet.secret_key w))]
               200)) /\
  (status (AppRoutes.signup encrypt st' (Some u) (Some p) w disk).1 = 201 ->
   AppRoutes.get_wallet decrypt
     (AppRoutes.signup encrypt st' (Some u) (Some p) w disk).2 (Some u)
   = Return (jsonify [("solana_public_key", JStr (Wallet.public_key w));
                      ("solana_private_key", JStr (Wallet.secret_key w))]
               200)).
Proof.
  intros D. split; intros H.
  - destruct (signup_cases encrypt st (Some u) (Some p) w disk)
      as [[H4 _]|(u' & p' & [= <-] & [= <-] & Hu & Hp & _ & E)];
      [rewrite H4 in H; discriminate|].
    rewrite E in H |- *. cbv zeta in *.
    destruct disk as [|on_disk]; [|discriminate H].
    unfold AppWSolanaPubkey.get_wallet.
    cbn [snd AppWSolanaPubkey.users]. rewrite lookup_insert_eq.
    cbn [User.solana_private_key User.solana_public_key account].
    rewrite D. destruct u; [done|reflexivity].
  - destruct (app_signup_cases encrypt st' (Some u) (Some p) w disk)
      as [[H4 _]|(u' & p' & [= <-] & [= <-] & Hu & Hp & _ & E)];
      [rewrite H4 in H; discriminate|].
    rewrite E in H |- *. cbv zeta in *.
    destruct disk as [|on_disk]; [|discriminate H].
    unfold AppRoutes.get_wallet.
    cbn [snd AppRoutes.users]. rewrite lookup_insert_eq.
    cbn [User.solana_private_key User.solana_public_key app_account].
    rewrite D. destruct u; [done|reflexivity].
Qed.

Lemma sample_decrypt_encrypt (s : string) :
  sample_decrypt (sample_encrypt s) = Some s.
Proof. reflexivity. Qed.

Lemma wallet_round_trip_witness :
  AppRoutes.get_wallet sample_decrypt ada_signed_up (Some "ada")
  = Return (jsonify [("solana_public_key", JStr "7xKX");
                     ("solana_private_key", JStr "5JdQ")] 200).
Proof.
  apply (wallet_round_trip sample_encrypt sample_decrypt nobody app_nobody
           "ada" "pw" sample_wallet Written sample_decrypt_encrypt).
  reflexivity.
Defined.

(** ** The rarity of an upload *)

Section Rarities.
Context (py_int : string -> option Z) (py_float : string -> option float).
Context (net : upstream).

Lemma determine_rarity_is_tier (d : value) : is_tier (App.determine_rarity d).
Proof.
  unfold App.determine_rarity, is_tier.
  destruct (negb (is_number d)); [now left|right].
  destruct (value_lt d 25); [exists 1; split; [done|lia]|].
  destruct (value_lt d 100); [exists 2; split; [done|lia]|].
  destruct (value_lt d 500); [exists 3; split; [done|lia]|].
  exists 4; split; [done|lia].
Qed.

(** The rarity that [upload_rarity] gives for a resolution's outcome. *)
Lemma upload_rarity_spec (lat lon : option string) :
  AppRoutes.upload_rarity py_int py_float net lat lon
  = match lat ≫= py_float, lon ≫= py_float with
    | Some x, Some y =>
        (trace (App.get_population_density py_int py_float net x y),
         Val match result (App.get_population_density py_int py_float net x y) with
             | Val (Data d) =>
                 App.determine_rarity (Resolution.population_density d)
             | _ => None
             end)
    | _, _ => ([], Val None)
    end.
Proof.
  unfold AppRoutes.upload_rarity.
  destruct lat as [lat|]; [|reflexivity].
  destruct lon as [lon|]; cbn [mbind option_bind];
    [|destruct (py_float lat); reflexivity].
  unfold try_except, try_except_else, bind, parse, trace, result.
  destruct (py_float lat) as [x|]; [|reflexivity].
  destruct (py_float lon) as [y|]; [|reflexivity].
  cbn [ret app].
  destruct (App.get_population_density py_int py_float net x y)
    as [t [[msg|d]|e]]; cbn [fst snd]; cbn; rewrite ?app_nil_r;
    try reflexivity.
  unfold App.determine_rarity.
  destruct (is_number (Resolution.population_density d)); cbn;
    rewrite ?app_nil_r; reflexivity.
Qed.

Lemma upload_rarity_returns (lat lon : option string) :
  exists rar,
    result (AppRoutes.upload_rarity py_int py_float net lat lon) = Val rar /\
    is_tier rar.
Proof.
  rewrite upload_rarity_spec.
  destruct (lat ≫= py_float) as [x|]; [|exists None; split; [done|now left]].
  destruct (lon ≫= py_float) as [y|]; [|exists None; split; [done|now left]].
  eexists. split; [reflexivity|].
  destruct (result _) as [[msg|d]|e]; try (now left).
  apply determine_rarity_is_tier.
Qed.

End Rarities.

(** X12.  The rarity that [upload] stores never fails and is [None] or a
    tier from 1 to 4.  When a coordinate is absent or is not a float it is
    [None] and no request is made; otherwise the requests are those of one
    resolution for the two floats, and the rarity is a tier exactly when
    the resolution returns a numeric density, whose tier it then is (a
    density that cannot be calculated, a failed resolution and a
    resolution that raises all give [None]). *)
Theorem upload_rarity_tiers (py_int : string -> option Z)
    (py_float : string -> option float) (net : upstream)
    (lat lon : option string) :
  exists rar,
    result (AppRoutes.upload_rarity py_int py_float net lat lon) = Val rar /\
    is_tier rar /\
    (lat ≫= py_float = None \/ lon ≫= py_float = None ->
     rar = None /\
     trace (AppRoutes.upload_rarity py_int py_float net lat lon) = []) /\
    (forall x y, lat ≫= py_float = Some x -> lon ≫= py_float = Some y ->
       trace (AppRoutes.upload_rarity py_int py_float net lat lon)
       = trace (App.get_population_density py_int py_float net x y) /\
       forall k,
         rar = Some k <->
         exists d,
           result (App.get_population_density py_int py_float net x y)
           = Val (Data d) /\
           is_number (Resolution.population_density d) = true /\
           App.determine_rarity (Resolution.population_density d) = Some k).
Proof.
  destruct (upload_rarity_returns py_int py_float net lat lon)
    as (rar & R & T).
  exists rar. split; [exact R|]. split; [exact T|].
  rewrite upload_rarity_spec in R |- *.
  destruct (lat ≫= py_float) as [x|], (lon ≫= py_float) as [y|];
    unfold result, trace in *; cbn [fst snd] in *.
  2-4: split; [intros _; split; [congruence|reflexivity]
              |intros ? ? ? ?; congruence].
  split; [intros [?|?]; discriminate|].
  intros x' y' [= <-] [= <-]. split; [reflexivity|].
  injection R as <-. intros k.
  destruct (App.get_population_density py_int py_float net x y).2
    as [[msg|d]|e].
  - split; [discriminate|]. intros (d & [=] & _).
  - split.
    + intros H. exists d. split; [reflexivity|]. split; [|exact H].
      unfold App.determine_rarity in H.
      destruct (is_number (Resolution.population_density d));
        [reflexivity|discriminate].
    + intros (d' & [= <-] & _ & H). exact H.
  - split; [discriminate|]. intros (d & [=] & _).
Qed.

Example upload_rarity_dune :
  AppRoutes.upload_rarity sample_int sample_float direct_net
    (Some "27") (Some "88")
  = ([GetOverpass (float_of_int 27) (float_of_int 88); GetSparql "Q9"],
     Val (Some 4)).
Proof. vm_compute. reflexivity. Qed.

(** Where the resolution raises, the handler of the upload gives no
    rarity. *)
Example upload_rarity_overflow :
  AppRoutes.upload_rarity sample_int sample_float crowded_net
    (Some "27") (Some "88")
  = ([GetOverpass (float_of_int 27) (float_of_int 88); GetSparql "Q6"],
     Val None).
Proof. vm_compute. reflexivity. Qed.

(** ** Uploading in [src/app.py] *)

Section Minting.
Context (check_output : list string -> process).
Context (search_mint_address : string -> option string).
Context (store_image : string -> bool).

Local Abbreviation upload_minting :=
  (AppRoutes.upload_minting check_output search_mint_address store_image).

Lemma upload_minting_cases (st : AppRoutes.state) (f : AppRoutes.upload_form) :
  match upload_minting st f with
  | Go (username, nft_name, description, image) =>
      exists r,
        minted check_output search_mint_address store_image st f
          username nft_name description image r
  | Return r => status r = 400
  | Throw => True
  end.
Proof.
  unfold AppRoutes.upload_minting, minted.
  destruct (AppRoutes.files_image f) as [filename|]; [|reflexivity].
  destruct (String.eqb_spec filename EmptyString) as [->|Hf]; [reflexivity|].
  destruct (store_image (os_path_join "uploads" filename)) eqn:S; [|exact I].
  cbn [negb].
  destruct (AppRoutes.form_username f) as [username|]; [|exact I].
  destruct (AppRoutes.users st !! username) as [r|] eqn:U; [|exact I].
  destruct (AppRoutes.form_name f) as [nft_name|]; [|reflexivity].
  destruct (AppRoutes.form_description f) as [description|]; [|reflexivity].
  match goal with |- context [if ?b then _ else _] => destruct b end;
    [reflexivity|].
  destruct (check_output _) as [out| |] eqn:Mint; [|reflexivity|exact I].
  destruct (search_mint_address out) as [mint_address|] eqn:A; [|exact I].
  destruct (check_output ["node"; "sendNft.js"; _; _]) as [sent| |] eqn:Send;
    [|reflexivity|exact I].
  exists r. split; [eauto|]. repeat (split; [done|]).
  exists out, mint_address, sent. auto.
Qed.

End Minting.

(** The six appends: all of them on a record that has its six lists, and
    otherwise not all of them. *)
Lemma append_nft_cases (r : User.t) (nft_name description image : string)
    (lat long_val : option string) (rar : option Z) :
  (exists names descs paths lats lons rars,
     User.nft_names r = Some names /\ User.descriptions r = Some descs /\
     User.image_paths r = Some paths /\ User.latitude r = Some lats /\
     User.longitude r = Some lons /\ User.rarity r = Some rars /\
     AppRoutes.append_nft r nft_name description image lat long_val rar
     = ({| User.password := User.password r;
           User.solana_public_key := User.solana_public_key r;
           User.solana_private_key := User.solana_private_key r;
           User.nft_names := Some (names ++ [nft_name]);
           User.descriptions := Some (descs ++ [description]);
           User.image_paths := Some (paths ++ [image]);
           User.latitude := Some (lats ++ [lat]);
           User.longitude := Some (lons ++ [long_val]);
           User.rarity := Some (rars ++ [rar]) |}, true)) \/
  (~ has_lists r /\
   (AppRoutes.append_nft r nft_name description image lat long_val rar).2
   = false /\
   credentials
     (AppRoutes.append_nft r nft_name description image lat long_val rar).1
   = credentials r /\
   (User.nft_names r = None ->
    (AppRoutes.append_nft r nft_name description image lat long_val rar).1 = r)).
Proof.
  unfold AppRoutes.append_nft, has_lists.
  destruct r as [pw pk sk [names|] [descs|] [paths|] [lats|] [lons|] [rars|]];
    cbn.
  1: left; exists names, descs, paths, lats, lons, rars; auto 10.
  all: right; split;
    [intros (H1 & H2 & H3 & H4 & H5 & H6);
     first [ destruct H1 as [? H1]; discriminate H1
           | destruct H2 as [? H2]; discriminate H2
           | destruct H3 as [? H3]; discriminate H3
           | destruct H4 as [? H4]; discriminate H4
           | destruct H5 as [? H5]; discriminate H5
           | destruct H6 as [? H6]; discriminate H6 ]|];
    split; [reflexivity|]; split; [reflexivity|];
    first [discriminate | reflexivity].
Qed.

Section Uploading.
Context (py_int : string -> option Z) (py_float : string -> option float).
Context (net : upstream).
Context (check_output : list string -> process).
Context (search_mint_address : string -> option string).
Context (store_image : string -> bool).

Local Abbreviation upload :=
  (AppRoutes.upload py_int py_float net check_output search_mint_address
     store_image).
Local Abbreviation upload_rarity := (AppRoutes.upload_rarity py_int py_float net).

(** The two ways an upload ends: before the rarity, with nothing changed,
    or after it, with what the appends and the write made of the state. *)
Lemma upload_cases (st : AppRoutes.state) (f : AppRoutes.upload_form)
    (disk : write (gmap string User.t)) :
  (exists resp, upload st f disk = ([], resp, st) /\
                (status resp = 400 \/ resp = AppRoutes.internal_error)) \/
  (exists username nft_name description image r rar,
     minted check_output search_mint_address store_image st f
       username nft_name description image r /\
     result (upload_rarity (AppRoutes.form_latitude f)
               (AppRoutes.form_longitude f)) = Val rar /\
     is_tier rar /\
     upload st f disk
     = let t := trace (upload_rarity (AppRoutes.form_latitude f)
                         (AppRoutes.form_longitude f)) in
       let a := AppRoutes.append_nft r nft_name description image
                  (AppRoutes.form_latitude f) (AppRoutes.form_longitude f)
                  rar in
       let us := <[username := a.1]> (AppRoutes.users st) in
       if a.2 then
         match disk with
         | Written =>
             (t,
              jsonify [("success", JBool true);
                       ("message", JStr "NFT minted and sent successfully!")]
                200,
              {| AppRoutes.users := us; AppRoutes.users_file := Holds us |})
         | WriteError on_disk =>
             (t, AppRoutes.internal_error,
              {| AppRoutes.users := us; AppRoutes.users_file := on_disk |})
         end
       else
         (t, AppRoutes.internal_error,
          {| AppRoutes.users := us;
             AppRoutes.users_file := AppRoutes.users_file st |})).
Proof.
  unfold AppRoutes.upload.
  pose proof (upload_minting_cases check_output search_mint_address
                store_image st f) as C.
  destruct (AppRoutes.upload_minting _ _ _ st f)
    as [[[[username nft_name] description] image]|resp|].
  - destruct C as (r & C). right.
    destruct (upload_rarity_returns py_int py_float net
                (AppRoutes.form_latitude f) (AppRoutes.form_longitude f))
      as (rar & R & T).
    exists username, nft_name, description, image, r, rar.
    split; [exact C|]. split; [exact R|]. split; [exact T|].
    destruct C as (_ & _ & _ & _ & _ & U & _). rewrite U.
    destruct (AppRoutes.upload_rarity _ _ _ _ _) as [t o].
    unfold result in R. cbn [snd] in R. subst o. cbv zeta.
    destruct (AppRoutes.append_nft _ _ _ _ _ _ _) as [r' [|]];
      [destruct disk|]; reflexivity.
  - left. exists resp. split; [reflexivity|now left].
  - left. eexists. split; [reflexivity|now right].
Qed.

End Uploading.

(** X13.  How an upload of [src/app.py] ends.  It is answered 200, 400
    or with the internal error (500).  An upload answered 400 changes
    nothing and asks nothing of the upstream services.  Requests are made,
    and the state is touched, only once the image was stored, the name was
    found registered, the mint command printed an address and the send
    command succeeded; the other users are then as before and the user
    keeps password and keys.  Such an upload is answered 200 only when the
    user's record has its six lists and the write of [users.json]
    succeeded, the file then holding what the memory holds.  Otherwise it
    is answered 500 after the rarity was computed: either the record lacks
    a list, and the file is as before, or the write failed, and the file
    is what the failed write left. *)
Theorem upload_outcomes (py_int : string -> option Z)
    (py_float : string -> option float) (net : upstream)
    (check_output : list string -> process)
    (search_mint_address : string -> option string)
    (store_image : string -> bool)
    (st : AppRoutes.state) (f : AppRoutes.upload_form)
    (disk : write (gmap string User.t)) :
  let out :=
    AppRoutes.upload py_int py_float net check_output search_mint_address
      store_image st f disk in
  (status out.1.2 = 200 \/ status out.1.2 = 400 \/
   out.1.2 = AppRoutes.internal_error) /\
  (status out.1.2 = 400 -> out.2 = st /\ out.1.1 = []) /\
  (out.1.1 <> [] \/ out.2 <> st \/ status out.1.2 = 200 ->
   exists username nft_name description image r,
     minted check_output search_mint_address store_image st f
       username nft_name description image r /\
     (forall v, v <> username ->
        AppRoutes.users out.2 !! v = AppRoutes.users st !! v) /\
     (exists r', AppRoutes.users out.2 !! username = Some r' /\
                 credentials r' = credentials r) /\
     (status out.1.2 = 200 ->
      has_lists r /\ disk = Written /\ app_saved out.2) /\
     (status out.1.2 <> 200 ->
      (~ has_lists r /\ AppRoutes.users_file out.2 = AppRoutes.users_file st)
      \/ (has_lists r /\
          exists on_disk, disk = WriteError on_disk /\
                          AppRoutes.users_file out.2 = on_disk))).
Proof.
  intros out. subst out.
  destruct (upload_cases py_int py_float net check_output
              search_mint_address store_image st f disk)
    as [(resp & -> & H)|(u & n & d & i & r & rar & Mi & _ & _ & ->)];
    cbn [fst snd].
  { split; [tauto|]. split; [done|].
    intros [H2|[H2|H2]]; [done|done|].
    destruct H as [H| ->]; [rewrite H in H2|]; discriminate. }
  cbv zeta.
  assert (AppRoutes.users st !! u = Some r) as U
    by (destruct Mi as (_ & _ & _ & _ & _ & U & _); exact U).
  destruct (append_nft_cases r n d i (AppRoutes.form_latitude f)
              (AppRoutes.form_longitude f) rar)
    as [(names & descs & paths & lats & lons & rars
         & E1 & E2 & E3 & E4 & E5 & E6 & ->)|(NL & -> & C & _)];
    cbn [fst snd].
  - assert (has_lists r) as HL
      by (unfold has_lists; rewrite E1, E2, E3, E4, E5, E6; eauto 10).
    destruct disk as [|on_disk]; cbn [fst snd AppRoutes.users
      AppRoutes.users_file].
    + split; [now left|]. split; [discriminate|].
      intros _. exists u, n, d, i, r. split; [exact Mi|].
      split; [intros v Hv; apply lookup_insert_ne; congruence|].
      split; [rewrite lookup_insert_eq; eexists; split; reflexivity|].
      split; [intros _; split; [exact HL|split; reflexivity]|].
      intros H; now destruct H.
    + split; [right; now right|]. split; [discriminate|].
      intros _. exists u, n, d, i, r. split; [exact Mi|].
      split; [intros v Hv; apply lookup_insert_ne; congruence|].
      split; [rewrite lookup_insert_eq; eexists; split; reflexivity|].
      split; [discriminate|].
      intros _. right. split; [exact HL|]. eauto.
  - cbn [fst snd AppRoutes.users AppRoutes.users_file].
    split; [right; now right|]. split; [discriminate|].
    intros _. exists u, n, d, i, r. split; [exact Mi|].
    split; [intros v Hv; apply lookup_insert_ne; congruence|].
    split; [rewrite lookup_insert_eq; eexists; split; [reflexivity|exact C]|].
    split; [discriminate|].
    intros _. left. split; [exact NL|reflexivity].
Qed.

(** The server of [src/app.py] with one user whose record was written by
    [src/appwsolanapubkey.py], and so has no lists. *)
Example upload_without_lists :
  let st :=
    {| AppRoutes.users := {["ada" := account "pw" sample_wallet "enc:5JdQ"]};
       AppRoutes.users_file :=
         Holds {["ada" := account "pw" sample_wallet "enc:5JdQ"]} |} in
  AppRoutes.upload sample_int sample_float direct_net sample_check_output
    sample_search_mint_address (fun _ => true) st sample_form Written
  = ([GetOverpass (float_of_int 27) (float_of_int 88); GetSparql "Q9"],
     AppRoutes.internal_error, st).
Proof. vm_compute. reflexivity. Qed.

(** An upload whose write fails: the NFT is in memory, not in the file. *)
Example upload_write_fails :
  let out :=
    AppRoutes.upload sample_int sample_float direct_net sample_check_output
      sample_search_mint_address (fun _ => true) ada_signed_up sample_form
      (WriteError NotJson) in
  out.1 = ([GetOverpass (float_of_int 27) (float_of_int 88); GetSparql "Q9"],
           AppRoutes.internal_error) /\
  AppRoutes.users_file out.2 = NotJson /\
  (AppRoutes.users out.2 !! "ada") ≫= User.nft_names = Some ["Dune"].
Proof. vm_compute. repeat split; reflexivity. Qed.

(** X14.  An upload answered 200 adds one NFT to the user named in the
    form and to nobody else: the user's password and keys are kept; each
    of the six lists gets one entry at its end (the name, the description,
    the path of the image, the latitude and the longitude as the form gave
    them, and the rarity computed); the file holds the new users; and
    [get_belongings] then lists the NFT last.  The path is
    [os.path.join('uploads', filename)]: the name under [uploads/], or the
    name itself when it begins with a slash. *)
Theorem upload_records_nft (py_int : string -> option Z)
    (py_float : string -> option float) (net : upstream)
    (check_output : list string -> process)
    (search_mint_address : string -> option string)
    (store_image : string -> bool)
    (st : AppRoutes.state) (f : AppRoutes.upload_form)
    (disk : write (gmap string User.t)) :
  let out :=
    AppRoutes.upload py_int py_float net check_output search_mint_address
      store_image st f disk in
  status out.1.2 = 200 ->
  exists username nft_name description filename r r'
         names descs paths lats lons rars rar,
    AppRoutes.form_username f = Some username /\
    AppRoutes.form_name f = Some nft_name /\
    AppRoutes.form_description f = Some description /\
    AppRoutes.files_image f = Some filename /\
    AppRoutes.users st !! username = Some r /\
    AppRoutes.users out.2 !! username = Some r' /\
    (forall v, v <> username ->
       AppRoutes.users out.2 !! v = AppRoutes.users st !! v) /\
    app_saved out.2 /\
    credentials r' = credentials r /\
    (User.nft_names r = Some names /\
     User.nft_names r' = Some (names ++ [nft_name])) /\
    (User.descriptions r = Some descs /\
     User.descriptions r' = Some (descs ++ [description])) /\
    (User.image_paths r = Some paths /\
     User.image_paths r' = Some (paths ++ [os_path_join "uploads" filename])) /\
    (User.latitude r = Some lats /\
     User.latitude r' = Some (lats ++ [AppRoutes.form_latitude f])) /\
    (User.longitude r = Some lons /\
     User.longitude r' = Some (lons ++ [AppRoutes.form_longitude f])) /\
    (User.rarity r = Some rars /\
     User.rarity r' = Some (rars ++ [rar]) /\
     result (AppRoutes.upload_rarity py_int py_float net
               (AppRoutes.form_latitude f) (AppRoutes.form_longitude f))
     = Val rar) /\
    (os_path_join "uploads" filename
     = match filename with
       | String "/"%char _ => filename
       | _ => "uploads/" +:+ filename
       end) /\
    AppRoutes.get_belongings out.2 (Some username)
    = Return (jsonify
        [("nft_names", JList (names ++ [nft_name]));
         ("descriptions", JList (descs ++ [description]));
         ("image_paths", JList (paths ++ [os_path_join "uploads" filename]))]
        200).
Proof.
  intros out. subst out.
  destruct (upload_cases py_int py_float net check_output
              search_mint_address store_image st f disk)
    as [(resp & -> & H)|(u & n & d & i & r & rar & Mi & R & _ & ->)];
    cbn [fst snd]; intros H2.
  { destruct H as [H| ->]; [rewrite H in H2|]; discriminate. }
  cbv zeta in *.
  destruct Mi as ((filename & Ff & _ & ->) & _ & Fu & Fn & Fd & U & _).
  destruct (append_nft_cases r n d (os_path_join "uploads" filename)
              (AppRoutes.form_latitude f) (AppRoutes.form_longitude f) rar)
    as [(names & descs & paths & lats & lons & rars
         & E1 & E2 & E3 & E4 & E5 & E6 & E)|(NL & E & _)];
    rewrite E in H2 |- *; cbn [fst snd] in *; [|discriminate H2].
  destruct disk as [|on_disk]; [|discriminate H2].
  cbn [fst snd AppRoutes.users].
  exists u, n, d, filename, r. eexists.
  exists names, descs, paths, lats, lons, rars, rar.
  unfold AppRoutes.get_belongings. cbn [AppRoutes.users].
  rewrite lookup_insert_eq.
  do 5 (split; [assumption|]). split; [reflexivity|].
  split; [intros v Hv; apply lookup_insert_ne; congruence|].
  split; [reflexivity|]. split; [reflexivity|].
  do 5 (split; [split; [assumption|reflexivity]|]).
  split; [split; [assumption|split; [reflexivity|exact R]]|].
  split; [|reflexivity].
  unfold os_path_join. destruct filename as [|[[] [] [] [] [] [] [] []] s];
    reflexivity.
Qed.

Lemma upload_records_nft_witness :
  AppRoutes.get_belongings
    (AppRoutes.upload sample_int sample_float direct_net sample_check_output
       sample_search_mint_address (fun _ => true) ada_signed_up sample_form
       Written).2
    (Some "ada")
  = Return (jsonify [("nft_names", JList ["Dune"]);
                     ("descriptions", JList ["A dune at dusk"]);
                     ("image_paths", JList ["uploads/dune.png"])] 200).
Proof.
  destruct (upload_records_nft sample_int sample_float direct_net
              sample_check_output sample_search_mint_address (fun _ => true)
              ada_signed_up sample_form Written eq_refl)
    as (u & n & d & fn & r & r' & names & descs & paths & lats & lons & rars
        & rar & Fu & Fn & Fd & Ff & U & _ & _ & _ & _ & [En _] & [Ed _]
        & [Ep _] & _ & _ & _ & _ & G).
  injection Fu as <-. injection Fn as <-. injection Fd as <-.
  injection Ff as <-. vm_compute in U. injection U as <-.
  injection En as <-. injection Ed as <-. injection Ep as <-. exact G.
Defined.

(** A file name that begins with a slash is stored, and recorded, under
    that name. *)
Example upload_absolute_name :
  (AppRoutes.users
     (AppRoutes.upload sample_int sample_float direct_net sample_check_output
        sample_search_mint_address (fun _ => true) ada_signed_up
        {| AppRoutes.form_username := Some "ada";
           AppRoutes.form_name := Some "Dune";
           AppRoutes.form_description := Some "A dune at dusk";
           AppRoutes.form_latitude := None;
           AppRoutes.form_longitude := None;
           AppRoutes.files_image := Some "/tmp/dune.png" |} Written).2
     !! "ada") ≫= User.image_paths
  = Some ["/tmp/dune.png"].
Proof. vm_compute. reflexivity. Qed.

(** X15.  The six lists of every user stay aligned.  When every user has
    either none of the six lists or all six, of one length, and every
    rarity is [None] or a tier from 1 to 4, the same holds after any
    signup and after any upload, whatever they are answered and however
    the write of [users.json] ends. *)
Theorem lists_stay_aligned (py_int : string -> option Z)
    (py_float : string -> option float) (net : upstream)
    (encrypt : string -> string)
    (check_output : list string -> process)
    (search_mint_address : string -> option string)
    (store_image : string -> bool)
    (st : AppRoutes.state)
    (username password : option string) (w : Wallet.t)
    (f : AppRoutes.upload_form) (disk : write (gmap string User.t)) :
  aligned st ->
  aligned (AppRoutes.signup encrypt st username password w disk).2 /\
  aligned (AppRoutes.upload py_int py_float net check_output
             search_mint_address store_image st f disk).2.
Proof.
  intros A. split.
  - destruct (app_signup_cases encrypt st username password w disk)
      as [[_ ->]|(u & p & _ & _ & _ & _ & _ & ->)]; [exact A|].
    cbv zeta.
    assert (aligned
      {| AppRoutes.users :=
           <[u := app_account p w (encrypt (Wallet.secret_key w))]>
             (AppRoutes.users st);
         AppRoutes.users_file := AppRoutes.users_file st |}) as A'.
    { intros v r. cbn [AppRoutes.users].
      destruct (decide (v = u)) as [->|Hv].
      - rewrite lookup_insert_eq. intros [= <-]. split; [|constructor].
        right. exists [], [], [], [], [], []. repeat split.
      - rewrite lookup_insert_ne by congruence. apply A. }
    destruct disk; exact A'.
  - destruct (upload_cases py_int py_float net check_output
                search_mint_address store_image st f disk)
      as [(resp & -> & H)|(u & n & d & i & r & rar & Mi & _ & T & ->)];
      [exact A|].
    cbv zeta.
    assert (AppRoutes.users st !! u = Some r) as U
      by (destruct Mi as (_ & _ & _ & _ & _ & U & _); exact U).
    assert (forall fl,
      aligned
        {| AppRoutes.users :=
             <[u := (AppRoutes.append_nft r n d i (AppRoutes.form_latitude f)
                       (AppRoutes.form_longitude f) rar).1]>
               (AppRoutes.users st);
           AppRoutes.users_file := fl |}) as A'.
    { intros fl v r'. cbn [AppRoutes.users].
      destruct (decide (v = u)) as [->|Hv];
        [|rewrite lookup_insert_ne by congruence; apply A].
      rewrite lookup_insert_eq. intros [= <-].
      destruct (A u r U) as (AL & Ft).
      destruct (append_nft_cases r n d i (AppRoutes.form_latitude f)
                  (AppRoutes.form_longitude f) rar)
        as [(names & descs & paths & lats & lons & rars
             & E1 & E2 & E3 & E4 & E5 & E6 & ->)|(NL & _ & _ & Same)];
        cbn [fst].
      - destruct AL as [(N1 & _)|(names' & descs' & paths' & lats' & lons'
                                  & rars' & F1 & F2 & F3 & F4 & F5 & F6
                                  & L1 & L2 & L3 & L4 & L5)];
          [congruence|].
        rewrite E1 in F1. rewrite E2 in F2. rewrite E3 in F3.
        rewrite E4 in F4. rewrite E5 in F5. rewrite E6 in F6.
        injection F1 as <-. injection F2 as <-. injection F3 as <-.
        injection F4 as <-. injection F5 as <-. injection F6 as <-.
        split.
        + right. eexists _, _, _, _, _, _.
          do 6 (split; [reflexivity|]).
          rewrite !length_app, L1, L2, L3, L4, L5. repeat split.
        + cbn [User.rarity default]. rewrite E6 in Ft. cbn [default] in Ft.
          apply Forall_app. split; [exact Ft|].
          constructor; [exact T|constructor].
      - destruct AL as [(N1 & _)|(names' & descs' & paths' & lats' & lons'
                                  & rars' & F1 & F2 & F3 & F4 & F5 & F6 & _)].
        + rewrite (Same N1). split; [|exact Ft]. 
          destruct (A u r U) as (AL & _). exact AL.
        + exfalso. apply NL. unfold has_lists.
          rewrite F1, F2, F3, F4, F5, F6. eauto 10. }
    destruct (AppRoutes.append_nft _ _ _ _ _ _ _).2;
      [destruct disk|]; apply A'.
Qed.

Lemma lists_stay_aligned_witness :
  aligned ada_signed_up /\
  aligned (AppRoutes.upload sample_int sample_float direct_net
             sample_check_output sample_search_mint_address (fun _ => true)
             ada_signed_up sample_form Written).2.
Proof.
  assert (aligned app_nobody) as A0.
  { intros u r H. discriminate H. }
  assert (aligned ada_signed_up) as A1.
  { apply (lists_stay_aligned sample_int sample_float direct_net
             sample_encrypt sample_check_output sample_search_mint_address
             (fun _ => true) app_nobody
             (Some "ada") (Some "pw") sample_wallet sample_form Written A0). }
  split; [exact A1|].
  apply (lists_stay_aligned sample_int sample_float direct_net
           sample_encrypt sample_check_output sample_search_mint_address
           (fun _ => true) ada_signed_up
           None None sample_wallet sample_form Written A1).
Defined.

(** ** The users file *)



Example start_on_undecodable_file :
  AppRoutes.start Undecodable Written = None /\
  AppRoutes.start Unreadable Written = None /\
  AppWSolanaPubkey.start Undecodable Written = None /\
  AppRoutes.start NotJson Written = Some app_nobody /\
  AppRoutes.start Missing Written = Some app_nobody /\
  AppRoutes.start Missing (WriteError Missing) = None.
Proof. repeat split; reflexivity. Qed.

(** ** A name that is not registered *)

(** X17.  In [src/app.py] a name that is not registered is answered
    differently by each route: [get_wallet] answers 404, [get_belongings]
    raises the [KeyError] (as it does for no name), and an upload with an
    image, for that name or for no name, is answered with the internal
    error (500) and changes nothing, whatever its other fields hold. *)
Theorem unregistered_name (py_int : string -> option Z)
    (py_float : string -> option float) (net : upstream)
    (decrypt : string -> option string)
    (check_output : list string -> process)
    (search_mint_address : string -> option string)
    (store_image : string -> bool)
    (st : AppRoutes.state) (u : string) :
  AppRoutes.users st !! u = None ->
  AppRoutes.get_wallet decrypt st (Some u)
  = Return (jsonify [("success", JBool false);
                     ("message", JStr "User not found.")] 404) /\
  AppRoutes.get_belongings st (Some u) = Throw /\
  AppRoutes.get_belongings st None = Throw /\
  forall f filename disk,
    AppRoutes.form_username f = Some u \/ AppRoutes.form_username f = None ->
    AppRoutes.files_image f = Some filename -> filename <> EmptyString ->
    AppRoutes.upload py_int py_float net check_output search_mint_address
      store_image st f disk
    = ([], AppRoutes.internal_error, st).
Proof.
  intros N. split; [|split; [|split]].
  - unfold AppRoutes.get_wallet. rewrite N. destruct u; reflexivity.
  - unfold AppRoutes.get_belongings. rewrite N. reflexivity.
  - reflexivity.
  - intros f filename disk Fu Ff Hf.
    unfold AppRoutes.upload, AppRoutes.upload_minting. rewrite Ff.
    destruct (String.eqb_spec filename EmptyString) as [->|_]; [done|].
    destruct (store_image _); [|reflexivity]. cbn [negb].
    destruct Fu as [-> | ->]; [rewrite N|]; reflexivity.
Qed.

Lemma unregistered_name_witness :
  AppRoutes.upload sample_int sample_float direct_net sample_check_output
    sample_search_mint_address (fun _ => true) app_nobody sample_form Written
  = ([], AppRoutes.internal_error, app_nobody).
Proof.
  destruct (unregistered_name sample_int sample_float direct_net
              sample_decrypt sample_check_output sample_search_mint_address
              (fun _ => true) app_nobody "ada" eq_refl)
    as (_ & _ & _ & H).
  apply (H sample_form "dune.png" Written).
  - left. reflexivity.
  - reflexivity.
  - discriminate.
Defined.

(** ** Uploading in [src/appwsolanapubkey.py] *)

Lemma blank_Some (s : string) : blank (Some s) = false <-> s <> EmptyString.
Proof. destruct s; simpl; split; congruence. Qed.

(** X18.  The upload of [src/appwsolanapubkey.py] records the upload
    before it mints.  A POST with its five fields filled in, whose image
    could be stored, puts its record under the user's name in
    [user_images], replacing an earlier one, whatever the node commands
    then do (also when they fail or raise); any other request leaves
    [user_images] as it was; and the redirect to the upload page is given
    only when the mint command printed an address and the send command
    succeeded. *)
Theorem upload_recorded_before_minting
    (check_output : list string -> process)
    (search_mint_address : string -> option string)
    (store_image : string -> bool)
    (user_images : gmap string AppWSolanaPubkey.image_record)
    (req : AppWSolanaPubkey.upload_request) :
  (forall username nft_name description filename recipient_pubkey,
     filled req username nft_name description filename recipient_pubkey ->
     store_image (os_path_join "uploads" filename) = true ->
     (AppWSolanaPubkey.upload check_output search_mint_address store_image
        user_images req).1
     = <[username :=
           {| AppWSolanaPubkey.name := nft_name;
              AppWSolanaPubkey.description := description;
              AppWSolanaPubkey.path := os_path_join "uploads" filename;
              AppWSolanaPubkey.recipient := recipient_pubkey |}]>
         user_images) /\
  ((AppWSolanaPubkey.upload check_output search_mint_address store_image
      user_images req).1 <> user_images ->
   exists username nft_name description filename recipient_pubkey,
     filled req username nft_name description filename recipient_pubkey /\
     store_image (os_path_join "uploads" filename) = true) /\
  (forall msgs,
     (AppWSolanaPubkey.upload check_output search_mint_address store_image
        user_images req).2 = Some (msgs, AppWSolanaPubkey.RedirectToUpload) ->
     exists username nft_name description filename recipient_pubkey
            out mint_address sent,
       filled req username nft_name description filename recipient_pubkey /\
       check_output ["node"; "mintNft.js"; os_path_join "uploads" filename;
                     nft_name; "MYNFT"; description] = Output out /\
       search_mint_address out = Some mint_address /\
       check_output ["node"; "sendNft.js"; mint_address; recipient_pubkey]
       = Output sent).
Proof.
  unfold AppWSolanaPubkey.upload, filled.
  destruct (AppWSolanaPubkey.post req);
    [|split; [|split]; [intros ? ? ? ? ? (? & _); discriminate|done|
                        intros ? [=]]].
  destruct (AppWSolanaPubkey.form_username req) as [u|];
    [|split; [|split]; [intros ? ? ? ? ? (_ & [=] & _)|done|intros ? [=]]].
  destruct (AppWSolanaPubkey.form_name req) as [n|];
    [|split; [|split]; [intros ? ? ? ? ? (_ & _ & [=] & _)|done|intros ? [=]]].
  destruct (AppWSolanaPubkey.form_description req) as [d|];
    [|split; [|split];
      [intros ? ? ? ? ? (_ & _ & _ & [=] & _)|done|intros ? [=]]].
  destruct (AppWSolanaPubkey.files_image req) as [fn|];
    [|split; [|split];
      [intros ? ? ? ? ? (_ & _ & _ & _ & [=] & _)|done|intros ? [=]]].
  destruct (AppWSolanaPubkey.form_recipient req) as [rc|];
    [|split; [|split];
      [intros ? ? ? ? ? (_ & _ & _ & _ & _ & [=] & _)|done|intros ? [=]]].
  destruct (blank (Some u) || blank (Some n) || blank (Some d)
            || blank (Some fn) || blank (Some rc)) eqn:B.
  { split; [|split]; [|done|intros ? [=]].
    intros ? ? ? ? ? (_ & [= <-] & [= <-] & [= <-] & [= <-] & [= <-]
                      & Hu & Hn & Hd & Hf & Hr).
    apply blank_Some in Hu, Hn, Hd, Hf, Hr.
    rewrite Hu, Hn, Hd, Hf, Hr in B. discriminate. }
  repeat (apply orb_false_elim in B as [B ?]).
  match goal with H : blank (Some rc) = false |- _ => apply blank_Some in H end.
  match goal with H : blank (Some fn) = false |- _ => apply blank_Some in H end.
  match goal with H : blank (Some d) = false |- _ => apply blank_Some in H end.
  match goal with H : blank (Some n) = false |- _ => apply blank_Some in H end.
  apply blank_Some in B.
  assert (filled_here :
    true = true /\ Some u = Some u /\ Some n = Some n /\ Some d = Some d /\
    Some fn = Some fn /\ Some rc = Some rc /\ u <> EmptyString /\
    n <> EmptyString /\ d <> EmptyString /\ fn <> EmptyString /\
    rc <> EmptyString) by (repeat (split; [done|]); done).
  destruct (store_image (os_path_join "uploads" fn)) eqn:S; cbn [negb].
  2: { split; [|split]; [|done|intros ? [=]].
       intros ? ? ? ? ? (_ & _ & _ & _ & [= <-] & _) S'. congruence. }
  split; [|split].
  - intros ? ? ? ? ? (_ & [= <-] & [= <-] & [= <-] & [= <-] & [= <-] & _) _.
    destruct (check_output _) as [out| |]; try reflexivity.
    destruct (search_mint_address out); [|reflexivity].
    destruct (check_output _) as [sent| |]; reflexivity.
  - intros _. exists u, n, d, fn, rc. split; [exact filled_here|exact S].
  - intros msgs Hm.
    destruct (check_output ["node"; "mintNft.js"; _; _; _; _])
      as [out| |] eqn:Mint; cbn [snd] in Hm; try discriminate Hm.
    destruct (search_mint_address out) as [addr|] eqn:A; cbn [snd] in Hm;
      try discriminate Hm.
    destruct (check_output ["node"; "sendNft.js"; _; _])
      as [sent| |] eqn:Send; cbn [snd] in Hm; try discriminate Hm.
    exists u, n, d, fn, rc, out, addr, sent. auto.
Qed.

Lemma upload_recorded_before_minting_witness :
  (AppWSolanaPubkey.upload (fun _ => OtherError) (fun _ => None)
     (fun _ => true) ∅ sample_request).1 !! "ada"
  = Some {| AppWSolanaPubkey.name := "Dune";
            AppWSolanaPubkey.description := "A dune at dusk";
            AppWSolanaPubkey.path := "uploads/dune.png";
            AppWSolanaPubkey.recipient := "7xKX" |}.
Proof.
  destruct (upload_recorded_before_minting (fun _ => OtherError)
              (fun _ => None) (fun _ => true) ∅ sample_request) as (H & _).
  rewrite (H "ada" "Dune" "A dune at dusk" "dune.png" "7xKX").
  - apply lookup_insert_eq.
  - unfold filled. repeat (split; [done|]). done.
  - reflexivity.
Defined.
